(** * ebird-pages: the checklist scraper ([src/ebird/pages/checklists.py])

    A shallow embedding of the scraper and the properties of its protocol
    policies and field extractors.

    - [Py]   : the fragment of the Python runtime the scraper relies on
               (exceptions, [str] methods, [int], [float], [re],
               [datetime.strptime] / [strftime]).
    - [Bs4]  : the document tree and the BeautifulSoup queries the scraper
               issues ([find], [find_all], [.text], [.string], ...).
    - top level : the functions of [checklists.py], under their own names
               ([get_checklist], the HTTP fetch, is left out: the scraper
               starts from the parsed page), then sample pages
               ([Fixtures]) and the theorems.

    A [str] is a [string] whose characters are its code points; the
    character type has 256 values, so the texts covered are those whose code
    points lie below 256 (ASCII and Latin-1), and [str.isspace], [\s], [\d],
    [str.lower] and [repr] are modelled on that whole range (NBSP and NEL are
    whitespace, the Latin-1 capitals have lower-case forms). The runtime
    modelled is CPython 3.11 with its default limit on the digits [int]
    converts, and BeautifulSoup 4.13 or later. *)

From Stdlib Require Import ZArith NArith Ascii String Bool Lia.
From Stdlib Require Import DecimalString DecimalPos DecimalN.
From stdpp Require Import gmap strings list fin_maps.

#[local] Set Warnings "-register-all,-clear-no-such-hyp".

(* ===================================================================== *)
(** * The Python runtime                                                  *)
(* ===================================================================== *)

Module Py.

(** The exception classes that can leave the scraper. [KeyError] carries the
    key that was looked up, [ValueError] its message, [AttributeError] the
    attribute that was read on an object that has none (here always [None],
    or the [int] returned by [str.find]). *)
Inductive exn :=
| ValueError (msg : string)
| KeyError (key : string)
| IndexError
| AttributeError (attr : string)
| TypeError.

Inductive result (A : Type) :=
| Ok (a : A)
| Raise (e : exn).
Arguments Ok {A} a.
Arguments Raise {A} e.

#[export] Instance result_ret : MRet result := @Ok.
#[export] Instance result_bind : MBind result :=
  fun A B f m => match m with Ok a => f a | Raise e => Raise e end.

Definition is_ok {A} (r : result A) : bool :=
  match r with Ok _ => true | Raise _ => false end.

(** [xs[i]] for a non-negative literal [i] and [xs[-1]]. *)
Definition index {A} (xs : list A) (i : nat) : result A :=
  match xs !! i with Some x => Ok x | None => Raise IndexError end.

Definition index_last {A} (xs : list A) : result A :=
  match last xs with Some x => Ok x | None => Raise IndexError end.

(** [d[k]] on a dict. *)
Definition getitem {A} (d : gmap string A) (k : string) : result A :=
  match d !! k with Some x => Ok x | None => Raise (KeyError k) end.

(** ** [str] methods *)

Definition code (c : ascii) : N := N_of_ascii c.

(** [str.isspace] on one character: TAB..CR, FS..US, SPACE, NEL (U+0085)
    and NBSP (U+00A0) are the whitespace below code point 256. *)
Definition isspace (c : ascii) : bool :=
  let n := code c in
  ((9 <=? n) && (n <=? 13) || (28 <=? n) && (n <=? 32)
   || (n =? 133) || (n =? 160))%N.

Definition is_digit (c : ascii) : bool :=
  let n := code c in ((48 <=? n) && (n <=? 57))%N.

(** [str.lower] on one character: [A]..[Z], and the Latin-1 capitals
    U+00C0..U+00DE without the multiplication sign U+00D7. *)
Definition lower_char (c : ascii) : ascii :=
  let n := code c in
  if ((65 <=? n) && (n <=? 90)
      || (192 <=? n) && (n <=? 222) && negb (n =? 215))%N
  then ascii_of_N (n + 32) else c.

Fixpoint lower (s : string) : string :=
  match s with
  | EmptyString => EmptyString
  | String c s' => String (lower_char c) (lower s')
  end.

Fixpoint lstrip (s : string) : string :=
  match s with
  | EmptyString => EmptyString
  | String c s' => if isspace c then lstrip s' else s
  end.

Fixpoint rstrip (s : string) : string :=
  match s with
  | EmptyString => EmptyString
  | String c s' =>
      match rstrip s' with
      | EmptyString => if isspace c then EmptyString else String c EmptyString
      | r => String c r
      end
  end.

Definition strip (s : string) : string := rstrip (lstrip s).

Definition of_rev (cur : list ascii) : string :=
  string_of_list_ascii (rev cur).

(** [s.split(sep)] for a one-character separator: never empty. *)
Fixpoint split_aux (sep : ascii) (cur : list ascii) (s : string) : list string :=
  match s with
  | EmptyString => [of_rev cur]
  | String c s' =>
      if Ascii.eqb c sep then of_rev cur :: split_aux sep [] s'
      else split_aux sep (c :: cur) s'
  end.

Definition split (sep : ascii) (s : string) : list string := split_aux sep [] s.

(** [s.split()]: runs of whitespace separate, empty pieces are dropped. *)
Fixpoint split_ws_aux (cur : list ascii) (s : string) : list string :=
  match s with
  | EmptyString => match cur with [] => [] | _ => [of_rev cur] end
  | String c s' =>
      if isspace c then
        match cur with
        | [] => split_ws_aux [] s'
        | _ => of_rev cur :: split_ws_aux [] s'
        end
      else split_ws_aux (c :: cur) s'
  end.

Definition split_ws (s : string) : list string := split_ws_aux [] s.

(** Truth value of a [str]. *)
Definition nonempty (s : string) : bool :=
  match s with EmptyString => false | _ => true end.

(** [needle in s]. *)
Fixpoint contains (needle s : string) : bool :=
  String.prefix needle s ||
  match s with
  | EmptyString => false
  | String _ s' => contains needle s'
  end.

(** ** [repr(str)], as the messages of the built-in errors quote a text *)

Fixpoint occurs (c : ascii) (s : string) : bool :=
  match s with
  | EmptyString => false
  | String c' s' => Ascii.eqb c c' || occurs c s'
  end.

(** [str.isprintable] on one character: the controls U+0000..U+001F and
    U+007F..U+009F, NBSP and the soft hyphen U+00AD are not printable. *)
Definition isprintable (c : ascii) : bool :=
  let n := code c in
  ((32 <=? n) && (n <? 127) || (161 <=? n) && negb (n =? 173))%N.

Definition hex_digit (n : N) : ascii :=
  ascii_of_N (if (n <? 10)%N then 48 + n else 87 + n).

(** One character between the quotes: the quote and the backslash are
    escaped, TAB, LF and CR have their letters, any other character that is
    not printable is written [\xhh]. *)
Definition repr_char (quote c : ascii) : string :=
  if Ascii.eqb c quote || Ascii.eqb c "092" then String "092" (String c EmptyString)
  else if Ascii.eqb c "009" then String "092" "t"
  else if Ascii.eqb c "010" then String "092" "n"
  else if Ascii.eqb c "013" then String "092" "r"
  else if isprintable c then String c EmptyString
  else String "092" (String "x" (String (hex_digit (code c / 16))
                       (String (hex_digit (code c mod 16)) EmptyString))).

Fixpoint repr_body (quote : ascii) (s : string) : string :=
  match s with
  | EmptyString => EmptyString
  | String c s' => (repr_char quote c ++ repr_body quote s')%string
  end.

(** Single quotes, unless the text has a single quote and no double one. *)
Definition repr (s : string) : string :=
  let quote :=
    if occurs "'" s && negb (occurs "034" s) then "034"%char else "'"%char in
  String quote (repr_body quote s ++ String quote EmptyString).

(** A natural number in decimal, as [%d] prints it. *)
Definition decimal (n : N) : string := NilEmpty.string_of_uint (N.to_uint n).

(** ** [int(str)] and [float(str)] *)

(** The whitespace [int] and [float] allow around a literal: that of
    [str.isspace] without the separators FS..US. *)
Definition literal_space (c : ascii) : bool :=
  let n := code c in
  isspace c && negb ((28 <=? n) && (n <=? 31))%N.

Fixpoint literal_lstrip (s : string) : string :=
  match s with
  | EmptyString => EmptyString
  | String c s' => if literal_space c then literal_lstrip s' else s
  end.

Fixpoint literal_rstrip (s : string) : string :=
  match s with
  | EmptyString => EmptyString
  | String c s' =>
      match literal_rstrip s' with
      | EmptyString =>
          if literal_space c then EmptyString else String c EmptyString
      | r => String c r
      end
  end.

Definition literal_strip (s : string) : string :=
  literal_rstrip (literal_lstrip s).

Definition starts_with_digit (s : string) : bool :=
  match s with String c _ => is_digit c | EmptyString => false end.

(** The longest prefix of the form [digit (["_"] digit)*], with the
    underscores dropped, and what follows it. *)
Fixpoint take_digitpart (s : string) : string * string :=
  match s with
  | EmptyString => (EmptyString, EmptyString)
  | String c s' =>
      if is_digit c then
        let next :=
          match s' with
          | String u s'' =>
              if Ascii.eqb u "_" && starts_with_digit s'' then s'' else s'
          | EmptyString => s'
          end in
        let '(ds, r) := take_digitpart next in (String c ds, r)
      else (EmptyString, s)
  end.

Definition digits_value (ds : string) : N :=
  match NilEmpty.uint_of_string ds with
  | Some d => N.of_uint d
  | None => 0%N
  end.

Definition take_sign (s : string) : bool * string :=
  match s with
  | String "-" s' => (true, s')
  | String "+" s' => (false, s')
  | _ => (false, s)
  end.

(** The message quotes at most 200 characters of the argument's [repr]. *)
Definition invalid_int (s : string) : exn :=
  ValueError ("invalid literal for int() with base 10: "
                ++ String.substring 0 200 (repr s)).

(** [sys.get_int_max_str_digits()], at its default. *)
Definition max_str_digits : N := 4300.

Definition too_many_digits (digits : N) : exn :=
  ValueError ("Exceeds the limit (" ++ decimal max_str_digits
                ++ " digits) for integer string conversion: value has "
                ++ decimal digits
                ++ " digits; use sys.set_int_max_str_digits() to increase the limit").

(** Whether a run of digits as long as [ds] is within the limit. *)
Definition within_limit (ds : string) : bool :=
  (N.of_nat (String.length ds) <=? max_str_digits)%N.

(** [int(s)]: surrounding whitespace (that of [literal_space]), an optional
    sign, decimal digits with single underscores between them. A misplaced
    underscore is found while
    the digits are scanned; the digits, however they end, are then counted
    against the limit (sign and underscores do not count); what follows them
    is looked at last. *)
Definition int (s : string) : result Z :=
  let '(neg, body) := take_sign (literal_strip s) in
  match take_digitpart body with
  | (EmptyString, _) => Raise (invalid_int s)
  | (ds, rest) =>
      if String.prefix "_" rest then Raise (invalid_int s)
      else if within_limit ds then
        if nonempty rest then Raise (invalid_int s)
        else
          let n := Z.of_N (digits_value ds) in
          Ok (if neg then (- n)%Z else n)
      else Raise (too_many_digits (N.of_nat (String.length ds)))
  end.

(** A [float], kept as the decimal it was read from: [mantissa * 10^exp10].
    Rounding to binary64 is not modelled. *)
Inductive pyfloat :=
| Finite (neg : bool) (mantissa : N) (exp10 : Z)
| Inf (neg : bool)
| NaN.

Definition invalid_float (s : string) : exn :=
  ValueError ("could not convert string to float: " ++ repr s).

Definition float_exponent (s : string) : option Z :=
  match s with
  | EmptyString => Some 0%Z
  | String e s' =>
      if Ascii.eqb (lower_char e) "e" then
        let '(neg, body) := take_sign s' in
        match take_digitpart body with
        | (String _ _ as ds, EmptyString) =>
            let n := Z.of_N (digits_value ds) in
            Some (if neg then (- n)%Z else n)
        | _ => None
        end
      else None
  end.

Definition float_number (neg : bool) (s : string) : option pyfloat :=
  let '(ip, r) := take_digitpart s in
  let '(fp, r') :=
    match r with
    | String "." r1 => take_digitpart r1
    | _ => (EmptyString, r)
    end in
  if nonempty ip || nonempty fp then
    match float_exponent r' with
    | Some e =>
        Some (Finite neg (digits_value (ip ++ fp))
                (e - Z.of_nat (String.length fp)))
    | None => None
    end
  else None.

(** [float(s)]: surrounding whitespace (that of [literal_space]), an
    optional sign, then [inf],
    [infinity], [nan] (any case) or a decimal number with an optional
    fraction and exponent. *)
Definition float (s : string) : result pyfloat :=
  let '(neg, body) := take_sign (literal_strip s) in
  let l := lower body in
  if String.eqb l "inf" || String.eqb l "infinity" then Ok (Inf neg)
  else if String.eqb l "nan" then Ok NaN
  else
    match float_number neg body with
    | Some f => Ok f
    | None => Raise (invalid_float s)
    end.

(** ** [re]: the patterns the scraper compiles *)

Inductive regex :=
| Void
| Eps
| Chr (c : ascii)
| Range (lo hi : ascii)
| Space
| Cat (r1 r2 : regex)
| Alt (r1 r2 : regex)
| Star (r : regex).

Definition Opt (r : regex) : regex := Alt r Eps.
Definition AnyDigit : regex := Range "0" "9".

Fixpoint Lit (s : string) : regex :=
  match s with
  | EmptyString => Eps
  | String c s' => Cat (Chr c) (Lit s')
  end.

Fixpoint nullable (r : regex) : bool :=
  match r with
  | Void | Chr _ | Range _ _ | Space => false
  | Eps | Star _ => true
  | Cat r1 r2 => nullable r1 && nullable r2
  | Alt r1 r2 => nullable r1 || nullable r2
  end.

Fixpoint deriv (c : ascii) (r : regex) : regex :=
  match r with
  | Void | Eps => Void
  | Chr c' => if Ascii.eqb c c' then Eps else Void
  | Range lo hi => if ((code lo <=? code c) && (code c <=? code hi))%N then Eps else Void
  | Space => if isspace c then Eps else Void
  | Cat r1 r2 =>
      let d := Cat (deriv c r1) r2 in
      if nullable r1 then Alt d (deriv c r2) else d
  | Alt r1 r2 => Alt (deriv c r1) (deriv c r2)
  | Star r1 => Cat (deriv c r1) (Star r1)
  end.

(** [r.fullmatch(s) is not None]. *)
Fixpoint fullmatch (r : regex) (s : string) : bool :=
  match s with
  | EmptyString => nullable r
  | String c s' => fullmatch (deriv c r) s'
  end.

(** [r.match(s) is not None]: some prefix of [s] matches. *)
Fixpoint match_ (r : regex) (s : string) : bool :=
  nullable r ||
  match s with
  | EmptyString => false
  | String c s' => match_ (deriv c r) s'
  end.

(** [r.search(s) is not None]: a match starts somewhere in [s]. *)
Fixpoint search (r : regex) (s : string) : bool :=
  match_ r s ||
  match s with
  | EmptyString => false
  | String _ s' => search r s'
  end.

(** ** [datetime] *)

Record datetime := mk_datetime
  { year : Z; month : Z; day : Z; hour : Z; minute : Z }.

(** The regular expressions [_strptime] substitutes for the directives. *)
Definition re_Y : regex := Cat AnyDigit (Cat AnyDigit (Cat AnyDigit AnyDigit)).
Definition re_m : regex :=
  Alt (Cat (Chr "1") (Range "0" "2"))
      (Alt (Cat (Chr "0") (Range "1" "9")) (Range "1" "9")).
Definition re_d : regex :=
  Alt (Cat (Chr "3") (Range "0" "1"))
      (Alt (Cat (Range "1" "2") AnyDigit)
           (Alt (Cat (Chr "0") (Range "1" "9"))
                (Alt (Range "1" "9") (Cat (Chr " ") (Range "1" "9"))))).
Definition re_H : regex :=
  Alt (Cat (Chr "2") (Range "0" "3"))
      (Alt (Cat (Range "0" "1") AnyDigit) AnyDigit).
Definition re_M : regex := Alt (Cat (Range "0" "5") AnyDigit) AnyDigit.

(** Cut [s] at the first character satisfying [p]. *)
Fixpoint cut_aux (p : ascii -> bool) (cur : list ascii) (s : string)
  : option (string * string) :=
  match s with
  | EmptyString => None
  | String c s' =>
      if p c then Some (of_rev cur, s') else cut_aux p (c :: cur) s'
  end.

Definition cut (p : ascii -> bool) (s : string) : option (string * string) :=
  cut_aux p [] s.

Definition field (r : regex) (s : string) : option Z :=
  if fullmatch r s then
    match int s with Ok n => Some n | Raise _ => None end
  else None.

Definition is_leap (y : Z) : bool :=
  ((y mod 4 =? 0) && (negb (y mod 100 =? 0) || (y mod 400 =? 0)))%Z.

Definition days_in_month (y m : Z) : Z :=
  if (m =? 2)%Z then (if is_leap y then 29 else 28)%Z
  else if ((m =? 4) || (m =? 6) || (m =? 9) || (m =? 11))%Z then 30%Z
  else 31%Z.

Definition format : string := "%Y-%m-%dT%H:%M".

Definition no_match (s : string) : exn :=
  ValueError ("time data " ++ repr s ++ " does not match format " ++ repr format).
Definition unconverted (rest : string) : exn :=
  ValueError ("unconverted data remains: " ++ rest).
Definition year_out_of_range : exn := ValueError "year 0 is out of range".
Definition day_out_of_range : exn := ValueError "day is out of range for month".

(** What the minute directive leaves of [s] when it matches at its start:
    it takes two digits when the first is below 6, one digit otherwise. *)
Definition after_minute (s : string) : option string :=
  match s with
  | EmptyString => None
  | String a s' =>
      match s' with
      | String b rest =>
          if ((code a <=? 53) && is_digit a && is_digit b)%N then Some rest
          else if is_digit a then Some s' else None
      | EmptyString => if is_digit a then Some s' else None
      end
  end.

(** The error for a text the format does not describe: the text may start
    with a match and go on, or not match at all. *)
Definition mismatch (s : string) : exn :=
  let leftover :=
    '(sY, s1) ← cut (Ascii.eqb "-") s;
    '(sm, s2) ← cut (Ascii.eqb "-") s1;
    '(sd, s3) ← cut (fun c => Ascii.eqb (lower_char c) "t") s2;
    '(sH, sM) ← cut (Ascii.eqb ":") s3;
    _ ← field re_Y sY;
    _ ← field re_m sm;
    _ ← field re_d sd;
    _ ← field re_H sH;
    after_minute sM in
  match leftover with
  | Some (String _ _ as rest) => unconverted rest
  | _ => no_match s
  end.

(** [datetime.datetime.strptime(s, "%Y-%m-%dT%H:%M")]. The format's literal
    characters are matched ignoring case; the whole of [s] has to be
    consumed; the date has to exist. *)
Definition strptime (s : string) : result datetime :=
  let parsed :=
    '(sY, s1) ← cut (Ascii.eqb "-") s;
    '(sm, s2) ← cut (Ascii.eqb "-") s1;
    '(sd, s3) ← cut (fun c => Ascii.eqb (lower_char c) "t") s2;
    '(sH, sM) ← cut (Ascii.eqb ":") s3;
    y ← field re_Y sY;
    m ← field re_m sm;
    d ← field re_d sd;
    H ← field re_H sH;
    M ← field re_M sM;
    Some (mk_datetime y m d H M) in
  match parsed with
  | None => Raise (mismatch s)
  | Some dt =>
      if (year dt <? 1)%Z then Raise year_out_of_range
      else if (days_in_month (year dt) (month dt) <? day dt)%Z
           then Raise day_out_of_range
           else Ok dt
  end.

Definition digit_char (n : Z) : ascii := ascii_of_N (48 + Z.to_N n).

(** A number below 100 on two digits, as [%I] and [%M] print it. *)
Definition pad2 (n : Z) : string :=
  String (digit_char (n / 10)) (String (digit_char (n mod 10)) EmptyString).

(** [dt.strftime("%I:%M %p")] in the C locale. *)
Definition strftime (dt : datetime) : string :=
  let h12 := if (hour dt mod 12 =? 0)%Z then 12%Z else (hour dt mod 12)%Z in
  (pad2 h12 ++ ":" ++ pad2 (minute dt) ++ " "
     ++ (if (hour dt <? 12)%Z then "AM" else "PM"))%string.

End Py.

(* ===================================================================== *)
(** * The document tree and its queries                                   *)
(* ===================================================================== *)

Module Bs4.
Import Py.

(** The parsed markup: text nodes and tags with their attribute dict and
    children. *)
Inductive PageElement :=
| NavigableString (s : string)
| Tag (name : string) (attrs : gmap string string) (contents : list PageElement).

(** A tag as the scraper holds it: with the way back to its parent and the
    elements that follow it under that parent. The [BeautifulSoup] object is
    the tag without a parent. *)
Inductive tag :=
| mk_tag (name : string) (attrs : gmap string string)
         (contents : list PageElement)
         (parent : option tag) (next_siblings : list PageElement).

Definition name (t : tag) := let 'mk_tag n _ _ _ _ := t in n.
Definition attrs (t : tag) := let 'mk_tag _ a _ _ _ := t in a.
Definition contents (t : tag) := let 'mk_tag _ _ c _ _ := t in c.
Definition parent (t : tag) := let 'mk_tag _ _ _ p _ := t in p.
Definition next_siblings (t : tag) := let 'mk_tag _ _ _ _ s := t in s.

Definition BeautifulSoup (contents : list PageElement) : tag :=
  mk_tag "[document]" ∅ contents None [].

(** The tags below [e] (and [e] itself when it is a tag) in document order. *)
Fixpoint walk (p : tag) (e : PageElement) (sibs : list PageElement) : list tag :=
  match e with
  | NavigableString _ => []
  | Tag n a cs =>
      let t := mk_tag n a cs (Some p) sibs in
      t :: (fix walk_all (l : list PageElement) : list tag :=
              match l with
              | [] => []
              | c :: l' => walk t c l' ++ walk_all l'
              end) cs
  end.

Fixpoint walk_all (p : tag) (l : list PageElement) : list tag :=
  match l with
  | [] => []
  | c :: l' => walk p c l' ++ walk_all p l'
  end.

Definition descendants (t : tag) : list tag := walk_all t (contents t).

(** [for child in t]: the children, text nodes as [str], tags located. *)
Fixpoint children_of (p : tag) (l : list PageElement) : list (string + tag) :=
  match l with
  | [] => []
  | NavigableString s :: l' => inl s :: children_of p l'
  | Tag n a cs :: l' => inr (mk_tag n a cs (Some p) l') :: children_of p l'
  end.

Definition children (t : tag) : list (string + tag) := children_of t (contents t).

(** [.text]: every string below, concatenated. *)
Fixpoint element_text (e : PageElement) : string :=
  match e with
  | NavigableString s => s
  | Tag _ _ cs =>
      (fix all (l : list PageElement) : string :=
         match l with
         | [] => EmptyString
         | c :: l' => (element_text c ++ all l')%string
         end) cs
  end.

Definition text (t : tag) : string :=
  element_text (Tag (name t) (attrs t) (contents t)).

(** [.string]: the one string of a tag with a single child, if any. *)
Fixpoint element_string (e : PageElement) : option string :=
  match e with
  | NavigableString s => Some s
  | Tag _ _ [c] => element_string c
  | Tag _ _ _ => None
  end.

Definition string_ (t : tag) : option string :=
  element_string (Tag (name t) (attrs t) (contents t)).

(** What a query compares a value with: a [str] or a compiled pattern. *)
Inductive matcher :=
| Exact (s : string)
| Pattern (r : regex).

(** [MatchRule.matches_string]: a missing value matches neither kind of
    criterion (not even the empty [str]); a [str] criterion is compared for
    equality, a pattern is searched. *)
Definition matches (v : option string) (m : matcher) : bool :=
  match v, m with
  | None, _ => false
  | Some v, Exact s => String.eqb v s
  | Some v, Pattern r => search r v
  end.

Fixpoint join (sep : string) (l : list string) : string :=
  match l with
  | [] => EmptyString
  | [x] => x
  | x :: l' => (x ++ sep ++ join sep l')%string
  end.

(** [class] is a list of values: one of them has to match, or the whole
    list joined with spaces. *)
Definition matches_attr (t : tag) (key : string) (m : matcher) : bool :=
  match attrs t !! key with
  | None => matches None m
  | Some v =>
      if String.eqb key "class" then
        existsb (fun c => matches (Some c) m) (split_ws v)
        || matches (Some (join " " (split_ws v))) m
      else matches (Some v) m
  end.

Definition matches_tag (nm : string) (filters : list (string * matcher))
    (str : option matcher) (t : tag) : bool :=
  String.eqb (name t) nm
  && forallb (fun f => matches_attr t f.1 f.2) filters
  && match str with
     | None => true
     | Some m => matches (string_ t) m
     end.

(** [t.find_all(name, attrs, string=...)] and [t.find(...)]. *)
Definition find_all (nm : string) (filters : list (string * matcher))
    (str : option matcher) (t : tag) : list tag :=
  List.filter (matches_tag nm filters str) (descendants t).

Definition find (nm : string) (filters : list (string * matcher))
    (str : option matcher) (t : tag) : option tag :=
  head (find_all nm filters str t).

(** [t.find_next_sibling()]: the next tag under the same parent. *)
Fixpoint first_tag (p : option tag) (l : list PageElement) : option tag :=
  match l with
  | [] => None
  | NavigableString _ :: l' => first_tag p l'
  | Tag n a cs :: l' => Some (mk_tag n a cs p l')
  end.

Definition find_next_sibling (t : tag) : option tag :=
  first_tag (parent t) (next_siblings t).

(** [o.attr] where [o] may be [None]. *)
Definition getattr {A} (o : option tag) (attr : string) (f : tag -> A)
  : result A :=
  match o with
  | Some t => Ok (f t)
  | None => Raise (AttributeError attr)
  end.

(** [o[key]] where [o] may be [None]. *)
Definition subscript (o : option tag) (key : string) : result string :=
  match o with
  | Some t => getitem (attrs t) key
  | None => Raise TypeError
  end.

End Bs4.

(* ===================================================================== *)
(** * checklists.py                                                       *)
(* ===================================================================== *)

Import Py Bs4.

(** The values the protocol dict holds: [None], a [str], a [float], a pair
    and the list of observer names. *)
Inductive value :=
| VNone
| VStr (s : string)
| VFloat (f : pyfloat)
| VPair (a b : value)
| VList (l : list string).

#[export] Instance value_inhabited : Inhabited value := populate VNone.

Definition of_str (o : option string) : value :=
  match o with Some s => VStr s | None => VNone end.

Definition of_float (o : option pyfloat) : value :=
  match o with Some f => VFloat f | None => VNone end.

(** [bool(v)]. *)
Definition truthy (v : value) : bool :=
  match v with
  | VNone => false
  | VStr s => nonempty s
  | VFloat (Finite _ m _) => negb (m =? 0)%N
  | VFloat _ => true
  | VPair _ _ => true
  | VList l => match l with [] => false | _ => true end
  end.

(** [v is None] and [v == (None, None)]. *)
Definition is_none (v : value) : bool :=
  match v with VNone => true | _ => false end.

Definition eq_none_pair (v : value) : bool :=
  match v with VPair VNone VNone => true | _ => false end.

(** [re.compile(r"\s*[Xx]rest[:]?\s*")], the shape of the label patterns. *)
Definition label_pattern (upper lower : ascii) (rest : string) : regex :=
  Cat (Star Space)
      (Cat (Alt (Chr upper) (Chr lower))
           (Cat (Lit rest) (Cat (Opt (Chr ":")) (Star Space)))).

Definition _scrape_identifier (node : tag) : result string :=
  subscript (find "input" [("name", Exact "subID")] None node) "value".

(** ** Location *)

Definition hotspot_links (node : tag) : option tag :=
  find "a" [("href", Pattern (Lit "hotspot"))] None node.

Definition region_link (node : tag) : option tag :=
  find "a" [("href", Pattern (Lit "region"))] None node.

Definition region_links (node : tag) : list tag :=
  find_all "a" [("href", Pattern (Lit "region"))] None node.

Definition span_text (t : tag) : result string :=
  getattr (find "span" [] None t) "text" text.

(** [t.attrs["href"].split("/")[2]]. *)
Definition href_part (t : tag) : result string :=
  href ← getitem (attrs t) "href";
  index (split "/" href) 2.

Definition _scrape_site (node : tag) : result string :=
  span ← getattr (hotspot_links node) "span" (find "span" [] None);
  getattr span "text" text.

Definition _scrape_subnational2 (node : tag) : result string :=
  getattr (region_link node) "text" text.

Definition _scrape_subnational2_code (node : tag) : result string :=
  a ← getattr (region_link node) "attrs" attrs;
  href ← getitem a "href";
  index (split "/" href) 2.

Definition _scrape_subnational1 (node : tag) : result string :=
  t ← index (region_links node) 1;
  span_text t.

Definition _scrape_subnational1_code (node : tag) : result string :=
  t ← index (region_links node) 1;
  href_part t.

Definition _scrape_country (node : tag) : result string :=
  t ← index (region_links node) 2;
  span_text t.

Definition _scrape_country_code (node : tag) : result string :=
  t ← index (region_links node) 2;
  href_part t.

Definition _scrape_location_identifier (node : tag) : result string :=
  a ← getattr (hotspot_links node) "attrs" attrs;
  href ← getitem a "href";
  index (split "/" href) 2.

Definition _scrape_coords (node : tag) : result string :=
  a ← getattr (find "a" [("class", Exact "u-inset-squish-sm")] None node)
        "attrs" attrs;
  href ← getitem a "href";
  index (split "=" href) 2.

(** The dict [_scrape_location] returns has a fixed set of keys. *)
Record Location := mk_location
  { loc_name : string;
    loc_identifier : string;
    loc_subnational2 : string;
    loc_subnational2_code : string;
    loc_subnational1 : string;
    loc_subnational1_code : string;
    loc_country : string;
    loc_country_code : string;
    loc_lat : string;
    loc_lon : string }.

(** What [_scrape_location] does once [_node] has been bound. *)
Definition location_fields (node : tag) : result Location :=
  c ← _scrape_coords node;
  let coords := split "," c in
  name ← _scrape_site node;
  identifier ← _scrape_location_identifier node;
  subnational2 ← _scrape_subnational2 node;
  subnational2_code ← _scrape_subnational2_code node;
  subnational1 ← _scrape_subnational1 node;
  subnational1_code ← _scrape_subnational1_code node;
  country ← _scrape_country node;
  country_code ← _scrape_country_code node;
  lat ← index coords 0;
  lon ← index coords 1;
  mret (mk_location name identifier subnational2 subnational2_code
          subnational1 subnational1_code country country_code lat lon).

Definition _scrape_location (node : tag) : result Location :=
  _node ← index (find_all "section" [] None node) 2;
  location_fields node.

(** ** The field extractors of the protocols *)

Definition _scrape_protocol_name (node : tag) : result string :=
  getattr (find "span" [("class", Exact "Heading-main u-inline-sm")] None node)
    "text" text.

Definition _scrape_date (node : tag) : result datetime :=
  value ← subscript (find "time" [] None node) "datetime";
  strptime value.

Definition _scrape_time (node : tag) : result (option string) :=
  a ← getattr (find "time" [] None node) "attrs" attrs;
  value ← getitem a "datetime";
  if nonempty value then
    dt ← strptime value;
    mret (Some (strftime dt))
  else mret None.

Definition _scrape_party_size (node : tag) : result string :=
  let regex := label_pattern "O" "o" "bservers" in
  let tag := find "span" [] (Some (Pattern regex)) node in
  sibling ← getattr tag "find_next_sibling" find_next_sibling;
  getattr sibling "text" text.

Definition _scrape_distance (node : tag) : result (option string) :=
  let regex := label_pattern "D" "d" "istance" in
  match find "span" [("title", Pattern regex)] None node with
  | Some dist =>
      t ← getattr (find "span" [("class", Exact "Badge-label")] None dist)
            "text" text;
      mret (Some t)
  | None => mret None
  end.

(** The table attached to [_scrape_distance]; the function does not read it. *)
Definition _scrape_distance_units : gmap string string :=
  list_to_map
    [ ("kilometer(s)", "km"); ("kilometre(s)", "km"); ("km(s)", "km");
      ("kilometers", "km"); ("kilometres", "km"); ("km", "km"); ("kms", "km");
      ("mile(s)", "mi"); ("miles", "mi") ].

Definition _scrape_area_units : gmap string string :=
  list_to_map
    [ ("hectare(s)", "ha"); ("hectares", "ha"); ("ha", "ha");
      ("acre(s)", "acre"); ("acres", "acre") ].

Definition _scrape_area (node : tag) : result (option pyfloat * option string) :=
  let regex := label_pattern "A" "a" "rea" in
  match find "dt" [] (Some (Pattern regex)) node with
  | Some tag =>
      field ← getattr (parent tag) "dd" (find "dd" [] None);
      t ← getattr field "text" text;
      let values := split_ws (lower t) in
      v0 ← index values 0;
      area ← float v0;
      v1 ← index values 1;
      units ← getitem _scrape_area_units v1;
      mret (Some area, Some units)
  | None => mret (None, None)
  end.

Definition _scrape_duration (node : tag) : result (option string) :=
  let regex := label_pattern "D" "d" "uration" in
  match find "span" [("title", Pattern regex)] None node with
  | Some tag =>
      t ← getattr (find "span" [("class", Exact "Badge-label")] None tag)
            "text" text;
      mret (Some t)
  | None => mret None
  end.

(** The body of the loop of [_scrape_observers]: on a text child [t.find] is
    [str.find], whose [int] has no [.text]. *)
Definition other_observer (t : string + tag) : result string :=
  match t with
  | inl _ => Raise (AttributeError "text")
  | inr t => getattr (find "span" [] None t) "text" text
  end.

Definition _scrape_observers (node : tag) : result (list string) :=
  let observers := [] in
  owner ← getattr (find "span" [] (Some (Exact "Owner")) node) "text" text;
  let observers := observers ++ [owner] in
  match find "div" [("id", Exact "checklist-others")] None node with
  | Some others =>
      Ok (foldl (fun observers t =>
                   match other_observer t with
                   | Ok n => observers ++ [n]
                   | Raise _ => observers
                   end) observers (children others))
  | None => Raise TypeError
  end.

(** ** The protocol policies *)

Definition not_found (field : string) : exn :=
  ValueError ("the " +:+ field +:+ " field was not found").

Definition _point_protocol (node : tag) : result (gmap string value) :=
  time ← _scrape_time node;
  duration ← _scrape_duration node;
  party_size ← _scrape_party_size node;
  observers ← _scrape_observers node;
  let results : gmap string value :=
    {[ "time" := of_str time;
       "duration" := of_str duration;
       "party_size" := VStr party_size;
       "observers" := VList observers ]} in
  if negb (truthy (results !!! "time")) then Raise (not_found "time")
  else if negb (truthy (results !!! "duration")) then Raise (not_found "duration")
  else if negb (truthy (results !!! "party_size")) then Raise (not_found "party size")
  else Ok results.

Definition _distance_protocol (node : tag) : result (gmap string value) :=
  time ← _scrape_time node;
  duration ← _scrape_duration node;
  distance ← _scrape_distance node;
  party_size ← _scrape_party_size node;
  observers ← _scrape_observers node;
  let results : gmap string value :=
    {[ "time" := of_str time;
       "duration" := of_str duration;
       "distance" := of_str distance;
       "party_size" := VStr party_size;
       "observers" := VList observers ]} in
  if negb (truthy (results !!! "time")) then Raise (not_found "time")
  else if is_none (results !!! "duration") then Raise (not_found "duration")
  else if eq_none_pair (results !!! "distance") then Raise (not_found "distance")
  else if negb (truthy (results !!! "party_size")) then Raise (not_found "party size")
  else Ok results.

Definition _incidental_observations (node : tag) : result (gmap string value) :=
  observers ← _scrape_observers node;
  let results : gmap string value := {[ "observers" := VList observers ]} in
  time ← _scrape_time node;
  let results := if truthy (of_str time) then <["time" := of_str time]> results
                 else results in
  Ok results.

Definition _historical_observations (node : tag) : result (gmap string value) :=
  observers ← _scrape_observers node;
  let results : gmap string value := {[ "observers" := VList observers ]} in
  time ← _scrape_time node;
  let results := if truthy (of_str time) then <["time" := of_str time]> results
                 else results in
  duration ← _scrape_duration node;
  let results := if truthy (of_str duration)
                 then <["duration" := of_str duration]> results
                 else results in
  distance ← _scrape_distance node;
  let results := if negb (eq_none_pair (of_str distance))
                 then <["distance" := of_str distance]> results
                 else results in
  area ← _scrape_area node;
  let area := VPair (of_float area.1) (of_str area.2) in
  let results := if negb (eq_none_pair area) then <["area" := area]> results
                 else results in
  party_size ← _scrape_party_size node;
  let results := if truthy (VStr party_size)
                 then <["party_size" := VStr party_size]> results
                 else results in
  Ok results.

Definition _area_protocol (include_area : bool) (node : tag)
  : result (gmap string value) :=
  time ← _scrape_time node;
  area ← _scrape_area node;
  duration ← _scrape_duration node;
  party_size ← _scrape_party_size node;
  observers ← _scrape_observers node;
  let results : gmap string value :=
    {[ "time" := of_str time;
       "area" := VPair (of_float area.1) (of_str area.2);
       "duration" := of_str duration;
       "party_size" := VStr party_size;
       "observers" := VList observers ]} in
  if negb (truthy (results !!! "time")) then Raise (not_found "time")
  else
    checked ←
      (if include_area then
         if eq_none_pair (results !!! "area") then Raise (not_found "area")
         else Ok results
       else Ok (delete "area" results));
    let results : gmap string value := checked in
    if is_none (results !!! "duration") then Raise (not_found "duration")
    else if negb (truthy (results !!! "party_size")) then Raise (not_found "party size")
    else Ok results.

Abbreviation policy := (tag -> result (gmap string value)).

Definition _protocols_items : list (string * policy) :=
  [ ("Stationary", _point_protocol);
    ("Traveling", _distance_protocol);
    ("Incidental", _incidental_observations);
    ("Historical", _historical_observations);
    ("Area", _area_protocol true);
    ("Banding", _area_protocol false);
    ("eBird Pelagic Protocol", _distance_protocol);
    ("Nocturnal Flight Call Count", _point_protocol);
    ("Random", _distance_protocol);
    ("CWC Point Count", _point_protocol);
    ("CWC Area Count", _area_protocol true);
    ("PROALAS", _point_protocol);
    ("TNC California Waterbird Count", _point_protocol);
    ("Rusty BlackbirdSpring Migration Blitz", _distance_protocol);
    ("California Brown Pelican Survey", _distance_protocol) ].

Definition _protocols : gmap string policy := list_to_map _protocols_items.

(** [results.update(d)]: the keys of [d] win. *)
Definition update (d results : gmap string value) : gmap string value :=
  d ∪ results.

Definition _scrape_protocol (node : tag) : result (gmap string value) :=
  name ← _scrape_protocol_name node;
  let results : gmap string value := {[ "name" := VStr name ]} in
  p ← getitem _protocols name;
  fields ← p node;
  Ok (update fields results).

(** ** Entries, comment, completion flag *)

Definition _scrape_comment (node : tag) : option string :=
  let comment := find "p" [("class", Exact "u-constrainBody")] None node in
  None.

Definition _scrape_species (node : tag) : result string :=
  span ← getattr (find "div" [("class", Exact "Observation-species")] None node)
           "span" (find "span" [] None);
  getattr span "text" text.

Definition _scrape_count (node : tag) : result (option Z) :=
  spans ← getattr
            (find "div" [("class", Exact "Observation-numberObserved")] None node)
            "find_all" (find_all "span" [] None);
  tag ← index_last spans;
  let value := lower (strip (text tag)) in
  if negb (String.eqb value "x") then
    count ← int value;
    mret (Some count)
  else mret None.

Record Entry := mk_entry { species : string; count : option Z }.

Definition _scrape_entry (node : tag) : result Entry :=
  s ← _scrape_species node;
  c ← _scrape_count node;
  mret (mk_entry s c).

Fixpoint for_each {A B} (f : A -> result B) (l : list A) : result (list B) :=
  match l with
  | [] => Ok []
  | x :: l' => y ← f x; ys ← for_each f l'; mret (y :: ys)
  end.

Definition _scrape_entries (node : tag) : result (list Entry) :=
  match find "div" [("id", Exact "list")] None node with
  | Some node =>
      for_each _scrape_entry (find_all "li" [("data-observation", Exact "")] None node)
  | None => Ok []
  end.

Definition _scrape_complete (node : tag) : result bool :=
  t ← index (find_all "span" [("class", Exact "Badge-label")] None node) 0;
  mret (String.eqb (text t) "Complete").

Record Checklist := mk_checklist
  { identifier : string;
    date : datetime;
    protocol : gmap string value;
    location : Location;
    entries : list Entry;
    comment : option string;
    complete : bool }.

Definition _scrape_checklist (soup : tag) : result Checklist :=
  i ← _scrape_identifier soup;
  d ← _scrape_date soup;
  p ← _scrape_protocol soup;
  l ← _scrape_location soup;
  e ← _scrape_entries soup;
  let c := _scrape_comment soup in
  b ← _scrape_complete soup;
  mret (mk_checklist i d p l e c b).

(* ===================================================================== *)
(** * Sample pages                                                        *)
(* ===================================================================== *)

Module Fixtures.

Definition str (s : string) : PageElement := NavigableString s.

Definition heading (protocol : string) : list PageElement :=
  [Tag "span" {["class" := "Heading-main u-inline-sm"]} [str protocol]].

Definition time_element (datetime : option string) : list PageElement :=
  match datetime with
  | Some v => [Tag "time" {["datetime" := v]} []]
  | None => []
  end.

Definition badge (title : string) (v : option string) : list PageElement :=
  match v with
  | Some v =>
      [Tag "span" {["title" := title]}
         [Tag "span" {["class" := "Badge-label"]} [str v]]]
  | None => []
  end.

Definition area_row (v : option string) : list PageElement :=
  match v with
  | Some v => [Tag "dl" ∅ [Tag "dt" ∅ [str "Area:"]; Tag "dd" ∅ [str v]]]
  | None => []
  end.

Definition party_row (v : option string) : list PageElement :=
  match v with
  | Some v => [Tag "div" ∅ [Tag "span" ∅ [str "Observers:"]; str " ";
                            Tag "span" ∅ [str v]]]
  | None => []
  end.

Definition observer_rows : list PageElement :=
  [Tag "span" ∅ [str "Owner"];
   Tag "div" {["id" := "checklist-others"]}
     [str " "; Tag "a" ∅ [Tag "span" ∅ [str "Jane Doe"]]; Tag "hr" ∅ []]].

(** A checklist page with the given protocol heading and the given optional
    parts. *)
Definition page (protocol : string) (datetime duration distance area party : option string)
  : tag :=
  BeautifulSoup
    [Tag "html" ∅
       [Tag "body" ∅
          (heading protocol ++ time_element datetime
             ++ badge "Duration: " duration ++ badge "Distance: " distance
             ++ area_row area ++ party_row party ++ observer_rows)]].

End Fixtures.

Import Fixtures.

(* ===================================================================== *)
(** * Sample pages and the vocabulary of the properties                   *)
(* ===================================================================== *)

(** ** Pages *)

(** Incidental pages: without a [time] element, and with one whose
    [datetime] attribute is empty. *)
Definition page_without_time : tag :=
  page "Incidental" None None None None None.

Definition page_with_empty_time : tag :=
  page "Incidental" (Some "") None None None None.

Definition page_at_0705 : tag :=
  page "Stationary" (Some "2023-05-07T19:05") (Some "30 min") None None (Some "2").

Definition page_stationary_no_duration : tag :=
  page "Stationary" (Some "2023-05-07T07:05") None None None (Some "2").

(** A page whose protocol heading is not in the registry. *)
Definition page_owl_survey : tag :=
  page "Owl Survey" (Some "2023-05-07T07:05") (Some "30 min") None None (Some "2").

Definition page_traveling (distance : option string) : tag :=
  page "Traveling" (Some "2023-05-07T07:05") (Some "30 min") distance None
    (Some "2").

(** Banding pages that show an area: a good one, one with a unit the table
    does not know, one without a number. *)
Definition page_banding_with_area : tag :=
  page "Banding" (Some "2023-05-07T06:30") (Some "4 hr") None
    (Some "2.5 hectares") (Some "3").

Definition page_banding_unknown_unit : tag :=
  page "Banding" (Some "2023-05-07T06:30") (Some "4 hr") None
    (Some "2.5 roods") (Some "3").

Definition page_banding_no_number : tag :=
  page "Banding" (Some "2023-05-07T06:30") (Some "4 hr") None
    (Some "several hectares") (Some "3").

(** The number and the unit with a no-break space (U+00A0) between them. *)
Definition page_banding_no_break_space : tag :=
  page "Banding" (Some "2023-05-07T06:30") (Some "4 hr") None
    (Some (String "2" (String "." (String "5" (String "160" "hectares")))))
    (Some "3").

Definition location_links : list PageElement :=
  [Tag "a" {["href" := "/hotspot/L191106"]} [Tag "span" ∅ [str "Central Park"]];
   Tag "a" {["href" := "/region/US-NY-061"]} [Tag "span" ∅ [str "New York County"]];
   Tag "a" {["href" := "/region/US-NY"]} [Tag "span" ∅ [str "New York"]];
   Tag "a" {["href" := "/region/US"]} [Tag "span" ∅ [str "United States"]];
   Tag "a" {["class" := "Button u-inset-squish-sm";
             "href" := "https://maps.example/?ie=UTF8&q=40.7715,-73.9674"]}
       [str "Map"]].

(** A page whose location links are all there, spread over two sections. *)
Definition page_two_sections : tag :=
  BeautifulSoup
    [Tag "html" ∅
       [Tag "body" ∅
          [Tag "section" ∅ location_links; Tag "section" ∅ [str "Species"]]]].

(** One observation item whose count badge reads [badge]. *)
Definition observation (badge : string) : tag :=
  BeautifulSoup
    [Tag "li" {["data-observation" := ""]}
       [Tag "div" {["class" := "Observation-species"]}
          [Tag "span" {["class" := "Heading-main"]} [str "Blue Jay"]];
        Tag "div" {["class" := "Observation-numberObserved"]}
          [Tag "span" ∅ [str "Number observed:"];
           Tag "span" ∅ [str badge]]]].

(** ** Numerals and clock strings *)

(** The decimal numeral of [n], without sign or leading zeros. *)
Definition numeral (n : N) : string := NilEmpty.string_of_uint (N.to_uint n).

Fixpoint all_digits (s : string) : bool :=
  match s with
  | EmptyString => true
  | String c s' => is_digit c && all_digits s'
  end.

Fixpoint zeros (n : nat) : string :=
  match n with
  | O => EmptyString
  | S n' => String "0" (zeros n')
  end.

(** A numeral of 4301 digits, one more than [int] converts: 10^4300. *)
Definition long_numeral : string := String "1" (zeros 4300).

(** The same digits as a decimal number of the standard library; its value
    is [N.of_uint long_number]. *)
Definition long_number : Decimal.uint :=
  Decimal.D1 (Nat.iter 4300 Decimal.D0 Decimal.Nil).

(** [hh:mm AM] or [hh:mm PM], the hour from 01 to 12. *)
Definition re_clock : regex :=
  Cat (Alt (Cat (Chr "0") (Range "1" "9")) (Cat (Chr "1") (Range "0" "2")))
      (Cat (Chr ":")
           (Cat (Range "0" "5")
                (Cat AnyDigit
                     (Cat (Chr " ") (Cat (Alt (Chr "A") (Chr "P")) (Chr "M")))))).

Definition clock_ok (h m : Z) : bool :=
  fullmatch re_clock (strftime (mk_datetime 2000 1 1 h m)).

(** ** The patterns of the labels *)

Abbreviation area_label := (label_pattern "A" "a" "rea").

Abbreviation distance_label := (label_pattern "D" "d" "istance").

(** ** The dict literals of the validating policies *)

Definition point_fields (time duration : option string) (party_size : string)
    (observers : list string) : gmap string value :=
  {[ "time" := of_str time;
     "duration" := of_str duration;
     "party_size" := VStr party_size;
     "observers" := VList observers ]}.

Definition distance_fields (time duration distance : option string)
    (party_size : string) (observers : list string) : gmap string value :=
  {[ "time" := of_str time;
     "duration" := of_str duration;
     "distance" := of_str distance;
     "party_size" := VStr party_size;
     "observers" := VList observers ]}.

Definition area_fields (time : option string) (area : option pyfloat * option string)
    (duration : option string) (party_size : string) (observers : list string)
  : gmap string value :=
  {[ "time" := of_str time;
     "area" := VPair (of_float area.1) (of_str area.2);
     "duration" := of_str duration;
     "party_size" := VStr party_size;
     "observers" := VList observers ]}.

(** ** Policies and the fields they test *)

(** The five policy functions, and the registry read by policy. *)
Inductive shape :=
| Point
| Distance
| Incidental
| Historical
| AreaShape (include_area : bool).

Definition policy_of (s : shape) : policy :=
  match s with
  | Point => _point_protocol
  | Distance => _distance_protocol
  | Incidental => _incidental_observations
  | Historical => _historical_observations
  | AreaShape include_area => _area_protocol include_area
  end.

Definition _protocols_shapes : list (string * shape) :=
  [ ("Stationary", Point);
    ("Traveling", Distance);
    ("Incidental", Incidental);
    ("Historical", Historical);
    ("Area", AreaShape true);
    ("Banding", AreaShape false);
    ("eBird Pelagic Protocol", Distance);
    ("Nocturnal Flight Call Count", Point);
    ("Random", Distance);
    ("CWC Point Count", Point);
    ("CWC Area Count", AreaShape true);
    ("PROALAS", Point);
    ("TNC California Waterbird Count", Point);
    ("Rusty BlackbirdSpring Migration Blitz", Distance);
    ("California Brown Pelican Survey", Distance) ].

(** The fields whose absence a policy turns into a [ValueError]. *)
Inductive field := Time | Duration | Area | PartySize.

Definition label (f : field) : string :=
  match f with
  | Time => "time"
  | Duration => "duration"
  | Area => "area"
  | PartySize => "party size"
  end.

Definition message (f : field) : string :=
  "the " +:+ label f +:+ " field was not found".

(** The fields a policy rejects a page for, in the order of its tests.
    [_distance_protocol] has a further test, on the distance (l.137); it
    compares what the distance extractor returned with a pair, so it never
    fires and the distance is not a field a policy can miss: see
    [missing_distance_unnoticed]. *)
Definition tested (s : shape) : list field :=
  match s with
  | Point | Distance | AreaShape false => [Time; Duration; PartySize]
  | AreaShape true => [Time; Area; Duration; PartySize]
  | Incidental | Historical => []
  end.

(** The extractor of [f] returns and reports the field absent: [None] for
    the time and the duration (an empty text too for the duration, under
    the point policy), the pair of [None] for the area, an empty text for
    the party size. *)
Definition absent (s : shape) (f : field) (node : tag) : Prop :=
  match f with
  | Time => _scrape_time node = Ok None
  | Duration =>
      _scrape_duration node = Ok None
      \/ (s = Point /\ _scrape_duration node = Ok (Some ""))
  | Area => _scrape_area node = Ok (None, None)
  | PartySize => _scrape_party_size node = Ok ""
  end.

(** The extractor of [f] returns a value. *)
Definition present (s : shape) (f : field) (node : tag) : Prop :=
  match f with
  | Time => exists t, _scrape_time node = Ok (Some t)
  | Duration =>
      exists d, _scrape_duration node = Ok (Some d) /\ (s = Point -> d <> "")
  | Area => exists a u, _scrape_area node = Ok (Some a, Some u)
  | PartySize => exists p, _scrape_party_size node = Ok p /\ p <> ""
  end.

(** The extractors a policy calls without testing their result return. *)
Definition others_return (s : shape) (node : tag) : Prop :=
  is_ok (_scrape_observers node) = true
  /\ match s with
     | Distance => is_ok (_scrape_distance node) = true
     | AreaShape false => is_ok (_scrape_area node) = true
     | _ => True
     end.

(** What C1 promises of a failure: a [ValueError] whose message names the
    field and the protocol. *)
Definition names_field_and_protocol
    (r : result (gmap string value)) (f : field) (protocol : string) : Prop :=
  exists msg, r = Raise (ValueError msg)
              /\ contains (label f) msg = true
              /\ contains protocol msg = true.

(** ** Vocabulary of the further properties *)

(** The strings a pattern denotes. *)
Inductive lang : regex -> string -> Prop :=
| lang_eps : lang Eps EmptyString
| lang_chr c : lang (Chr c) (String c EmptyString)
| lang_range lo hi c :
    ((code lo <=? code c) && (code c <=? code hi))%N = true ->
    lang (Range lo hi) (String c EmptyString)
| lang_space c : isspace c = true -> lang Space (String c EmptyString)
| lang_cat r1 r2 s1 s2 :
    lang r1 s1 -> lang r2 s2 -> lang (Cat r1 r2) (s1 ++ s2)%string
| lang_alt_l r1 r2 s : lang r1 s -> lang (Alt r1 r2) s
| lang_alt_r r1 r2 s : lang r2 s -> lang (Alt r1 r2) s
| lang_star_nil r : lang (Star r) EmptyString
| lang_star_cons r s1 s2 :
    lang r s1 -> lang (Star r) s2 -> lang (Star r) (s1 ++ s2)%string.

Definition all_ascii : list ascii := List.map ascii_of_nat (seq 0 256).

Definition chars_where (p : ascii -> bool) : list string :=
  List.map (fun c => String c EmptyString) (List.filter p all_ascii).

(** The words of a pattern without star, listed. *)
Fixpoint words (r : regex) : option (list string) :=
  match r with
  | Void => Some []
  | Eps => Some [EmptyString]
  | Chr c => Some [String c EmptyString]
  | Range lo hi =>
      Some (chars_where (fun c => (code lo <=? code c) && (code c <=? code hi))%N)
  | Space => Some (chars_where isspace)
  | Cat r1 r2 =>
      match words r1, words r2 with
      | Some l1, Some l2 =>
          Some (flat_map (fun a => List.map (fun b => (a ++ b)%string) l2) l1)
      | _, _ => None
      end
  | Alt r1 r2 =>
      match words r1, words r2 with
      | Some l1, Some l2 => Some (l1 ++ l2)
      | _, _ => None
      end
  | Star _ => None
  end.

(** Every number [int] reads from a word of [r] satisfies [p]. *)
Definition field_within (r : regex) (p : Z -> bool) : bool :=
  match words r with
  | Some l =>
      forallb (fun w => match int w with Ok n => p n | Raise _ => true end) l
  | None => false
  end.

Definition between (lo hi n : Z) : bool := ((lo <=? n) && (n <=? hi))%Z.

Definition incidental_fields (time : option string) (observers : list string)
  : gmap string value :=
  if truthy (of_str time)
  then <["time" := of_str time]> {[ "observers" := VList observers ]}
  else {[ "observers" := VList observers ]}.

Definition historical_fields (time duration distance : option string)
    (area : option pyfloat * option string) (party_size : string)
    (observers : list string) : gmap string value :=
  let results : gmap string value := {[ "observers" := VList observers ]} in
  let results := if truthy (of_str time) then <["time" := of_str time]> results
                 else results in
  let results := if truthy (of_str duration)
                 then <["duration" := of_str duration]> results
                 else results in
  let results := if negb (eq_none_pair (of_str distance))
                 then <["distance" := of_str distance]> results
                 else results in
  let area := VPair (of_float area.1) (of_str area.2) in
  let results := if negb (eq_none_pair area) then <["area" := area]> results
                 else results in
  if truthy (VStr party_size)
  then <["party_size" := VStr party_size]> results
  else results.

(** The keys of the record of a policy that tests its fields. *)
Definition declared (s : shape) : gset string :=
  match s with
  | Point | AreaShape false =>
      {[ "time"; "duration"; "party_size"; "observers" ]}
  | Distance =>
      {[ "time"; "duration"; "distance"; "party_size"; "observers" ]}
  | AreaShape true =>
      {[ "time"; "area"; "duration"; "party_size"; "observers" ]}
  | Incidental => {[ "observers"; "time" ]}
  | Historical =>
      {[ "observers"; "time"; "duration"; "distance"; "area"; "party_size" ]}
  end.

(** The record a policy returns, from what its extractors returned. *)
Definition record (s : shape) (time duration distance : option string)
    (area : option pyfloat * option string) (party_size : string)
    (observers : list string) : gmap string value :=
  match s with
  | Point => point_fields time duration party_size observers
  | Distance => distance_fields time duration distance party_size observers
  | Incidental => incidental_fields time observers
  | Historical =>
      historical_fields time duration distance area party_size observers
  | AreaShape true => area_fields time area duration party_size observers
  | AreaShape false =>
      delete "area" (area_fields time area duration party_size observers)
  end.

Definition extracted (s : shape) (node : tag)
    (time duration distance : option string)
    (area : option pyfloat * option string) (party_size : string) : Prop :=
  match s with
  | Point =>
      _scrape_duration node = Ok duration
      /\ _scrape_party_size node = Ok party_size
      /\ truthy (of_str time) = true /\ truthy (of_str duration) = true
      /\ nonempty party_size = true
  | Distance =>
      _scrape_duration node = Ok duration
      /\ _scrape_distance node = Ok distance
      /\ _scrape_party_size node = Ok party_size
      /\ truthy (of_str time) = true /\ is_none (of_str duration) = false
      /\ nonempty party_size = true
  | AreaShape include_area =>
      _scrape_area node = Ok area
      /\ _scrape_duration node = Ok duration
      /\ _scrape_party_size node = Ok party_size
      /\ truthy (of_str time) = true
      /\ (include_area = true ->
          eq_none_pair (VPair (of_float area.1) (of_str area.2)) = false)
      /\ is_none (of_str duration) = false
      /\ nonempty party_size = true
  | Incidental => True
  | Historical =>
      _scrape_duration node = Ok duration
      /\ _scrape_distance node = Ok distance
      /\ _scrape_area node = Ok area
      /\ _scrape_party_size node = Ok party_size
  end.

(** The name a child of the observers container contributes, if any. *)
Definition other_name (t : string + tag) : option string :=
  match other_observer t with
  | Ok n => Some n
  | Raise _ => None
  end.

Abbreviation observation_items box :=
  (find_all "li" [("data-observation", Exact "")] None box).

(** An [li] that carries the attribute [data-observation] with the empty
    value, as the bare attribute of [<li data-observation>] is parsed. *)
Definition is_observation_item (t : tag) : bool :=
  String.eqb (name t) "li"
  && match attrs t !! "data-observation" with
     | Some v => String.eqb v ""
     | None => false
     end.

Definition failure {A} (r : result A) : option exn :=
  match r with Ok _ => None | Raise e => Some e end.

(** The failures of the extractors of [_scrape_checklist], in the order in
    which it calls them. *)
Definition failures (soup : tag) : list (option exn) :=
  [ failure (_scrape_identifier soup);
    failure (_scrape_date soup);
    failure (_scrape_protocol soup);
    failure (_scrape_location soup);
    failure (_scrape_entries soup);
    failure (_scrape_complete soup) ].

(** [c in s] for one character. *)
Fixpoint has_char (c : ascii) (s : string) : bool :=
  match s with
  | EmptyString => false
  | String x s' => Ascii.eqb x c || has_char c s'
  end.

Abbreviation duration_label := (label_pattern "D" "d" "uration").
Abbreviation observers_label := (label_pattern "O" "o" "bservers").

Definition badge_text (label : tag) : result string :=
  getattr (find "span" [("class", Exact "Badge-label")] None label) "text" text.

Definition entry_item (name badge : string) : PageElement :=
  Tag "li" {["data-observation" := ""]}
    [Tag "div" {["class" := "Observation-species"]}
       [Tag "span" {["class" := "Heading-main"]} [str name]];
     Tag "div" {["class" := "Observation-numberObserved"]}
       [Tag "span" ∅ [str "Number observed:"]; Tag "span" ∅ [str badge]]].

(** A whole checklist page: identifier, heading, time, three sections with
    the location links, two entries, the observers and the completion
    badge. *)
Definition page_checklist (protocol : string) (counts : string * string) : tag :=
  BeautifulSoup
    [Tag "html" ∅
       [Tag "body" ∅
          [Tag "input" {["name" := "subID"; "value" := "S136374832"]} [];
           Tag "section" ∅
             (heading protocol ++ time_element (Some "2023-05-07T07:05")
                ++ [Tag "span" {["class" := "Badge-label"]} [str "Complete"]]);
           Tag "section" ∅ location_links;
           Tag "section" ∅
             [Tag "div" {["id" := "list"]}
                [entry_item "Blue Jay" counts.1; str " ";
                 entry_item "Snowy Owl" counts.2]];
           Tag "div" ∅ observer_rows]]].

Definition page_historical : tag :=
  page "Historical" (Some "") (Some "1 hr") None (Some "3 acres") (Some "").

(** A list container with four [li]: two observation items, and between
    them one without the attribute and one whose attribute has a value. *)
Definition page_mixed_items : tag :=
  BeautifulSoup
    [Tag "div" {["id" := "list"]}
       [entry_item "Blue Jay" "3";
        Tag "li" ∅ [str "Additional species"];
        Tag "li" {["data-observation" := "hidden"]} [str "Hidden"];
        entry_item "Snowy Owl" "X"]].

Definition page_checklist_ok : tag := page_checklist "Incidental" ("3", "X").

Definition page_checklist_bad_count : tag :=
  page_checklist "Incidental" ("3", "few").

Definition page_area : tag :=
  page "Area" (Some "2023-05-07T06:30") (Some "4 hr") None
    (Some "2.5 Acres") (Some "3").

(* ===================================================================== *)
(** * Properties                                                          *)
(* ===================================================================== *)

(** ** Running the [result] monad *)

Lemma bind_ok {A B} (m : result A) (f : A -> result B) (a : A) :
  m = Ok a -> m ≫= f = f a.
Proof. intros ->. reflexivity. Qed.

Ltac run := unfold mbind, mret, result_bind, result_ret; simpl.

(** ** The time and date extractors *)

Lemma strptime_nonempty (v : string) (dt : datetime) :
  strptime v = Ok dt -> nonempty v = true.
Proof. destruct v; [discriminate | reflexivity]. Qed.

(** [%I:%M %p] prints every time of the day as [hh:mm AM] or [hh:mm PM]. *)
Lemma strftime_clock (dt : datetime) :
  (0 <= hour dt < 24)%Z -> (0 <= minute dt < 60)%Z ->
  fullmatch re_clock (strftime dt) = true.
Proof.
  intros Hh Hm.
  assert (forallb (fun h => forallb (clock_ok h) (seqZ 0 60)) (seqZ 0 24) = true)
    as Hall by (vm_compute; reflexivity).
  rewrite forallb_forall in Hall.
  specialize (Hall (hour dt)). rewrite forallb_forall in Hall.
  apply (Hall ltac:(apply list_elem_of_In, elem_of_seqZ; lia) (minute dt)).
  apply list_elem_of_In, elem_of_seqZ. lia.
Qed.

(** C6, as stated, fails: on a page without a [time] element the extractor
    raises instead of returning [None]. *)
Lemma scrape_time_missing_node_raises :
  find "time" [] None page_without_time = None
  /\ _scrape_time page_without_time = Raise (AttributeError "attrs")
  /\ _scrape_time page_without_time <> Ok None.
Proof.
  split; [| split].
  - vm_compute. reflexivity.
  - vm_compute. reflexivity.
  - intros H. vm_compute in H. discriminate.
Qed.

(** C6 (amended): the time extractor returns [None] exactly when the first
    [time] element carries an empty [datetime] attribute; when there is no
    [time] element it raises [AttributeError], and [KeyError] when the
    element has no [datetime] attribute. *)
Theorem scrape_time_absence (node : tag) :
  (find "time" [] None node = None ->
   _scrape_time node = Raise (AttributeError "attrs"))
  /\ (forall t, find "time" [] None node = Some t ->
        attrs t !! "datetime" = None ->
        _scrape_time node = Raise (KeyError "datetime"))
  /\ (_scrape_time node = Ok None <->
      exists t, find "time" [] None node = Some t
                /\ attrs t !! "datetime" = Some "").
Proof.
  unfold _scrape_time. split; [| split].
  - intros ->. reflexivity.
  - intros t -> H. run. unfold getitem. rewrite H. reflexivity.
  - split.
    + destruct (find "time" [] None node) as [t|]; [| discriminate].
      run. unfold getitem.
      destruct (attrs t !! "datetime") as [v|] eqn:Hv; [| discriminate].
      destruct v as [|c v]; simpl.
      * intros _. exists t. auto.
      * destruct (strptime (String c v)); discriminate.
    + intros (t & -> & Hv). run. unfold getitem. rewrite Hv. reflexivity.
Qed.

Lemma scrape_time_absence_witness :
  _scrape_time page_without_time = Raise (AttributeError "attrs")
  /\ _scrape_time page_with_empty_time = Ok None.
Proof.
  split.
  - apply (proj1 (scrape_time_absence page_without_time)). vm_compute. reflexivity.
  - apply (proj2 (proj2 (scrape_time_absence page_with_empty_time))).
    eexists. split; vm_compute; reflexivity.
Defined.

(** C8: when the [time] element carries a value that [strptime] accepts for
    [%Y-%m-%dT%H:%M], the date extractor returns that timestamp and the time
    extractor returns its rendering by [%I:%M %p]. *)
Theorem time_agrees_with_date (node t : tag) (v : string) (dt : datetime) :
  find "time" [] None node = Some t ->
  attrs t !! "datetime" = Some v ->
  strptime v = Ok dt ->
  _scrape_date node = Ok dt
  /\ _scrape_time node = Ok (Some (strftime dt)).
Proof.
  intros Hfind Hattr Hparse.
  unfold _scrape_date, _scrape_time. rewrite Hfind. run.
  unfold getitem. rewrite Hattr. run.
  rewrite (strptime_nonempty v dt Hparse), Hparse. split; reflexivity.
Qed.

Lemma time_agrees_with_date_witness :
  _scrape_date page_at_0705 = Ok (mk_datetime 2023 5 7 19 5)
  /\ _scrape_time page_at_0705 = Ok (Some "07:05 PM").
Proof.
  eapply (time_agrees_with_date page_at_0705 _ "2023-05-07T19:05");
    vm_compute; reflexivity.
Defined.

(** ** Dispatch on the protocol name *)

(** C2: when the protocol name read from the page is not a key of
    [_protocols], [_scrape_protocol] raises the [KeyError] of the lookup,
    which carries that name; no policy is run. *)
Theorem unregistered_protocol_fails (node : tag) (name : string) :
  _scrape_protocol_name node = Ok name ->
  _protocols !! name = None ->
  _scrape_protocol node = Raise (KeyError name).
Proof.
  intros Hname Hreg. unfold _scrape_protocol.
  rewrite (bind_ok _ _ _ Hname). unfold getitem. rewrite Hreg. reflexivity.
Qed.

Lemma unregistered_protocol_fails_witness :
  _scrape_protocol page_owl_survey = Raise (KeyError "Owl Survey").
Proof.
  apply unregistered_protocol_fails; vm_compute; reflexivity.
Defined.

(** ** Location *)

(** C10: [_scrape_location] indexes the third [section] first, so with fewer
    than three sections it raises [IndexError]; with three or more it is
    [location_fields], which never reads that section. *)
Theorem location_needs_three_sections (node : tag) :
  (length (find_all "section" [] None node) < 3 ->
   _scrape_location node = Raise IndexError)
  /\ (3 <= length (find_all "section" [] None node) ->
      _scrape_location node = location_fields node).
Proof.
  unfold _scrape_location, index. split; intros Hlen.
  - rewrite (proj2 (lookup_ge_None _ 2)) by lia. reflexivity.
  - destruct (lookup_lt_is_Some_2 (find_all "section" [] None node) 2) as [s Hs];
      [lia |].
    rewrite Hs. reflexivity.
Qed.

Lemma location_needs_three_sections_witness :
  _scrape_location page_two_sections = Raise IndexError
  /\ is_ok (location_fields page_two_sections) = true.
Proof.
  split.
  - apply (proj1 (location_needs_three_sections page_two_sections)).
    vm_compute. lia.
  - vm_compute. reflexivity.
Defined.

(** ** Counts *)

Lemma digit_is_plain (c : ascii) :
  is_digit c = true ->
  isspace c = false /\ lower_char c = c /\ Ascii.eqb c "_" = false
  /\ Ascii.eqb c "x" = false
  /\ forall s, take_sign (String c s) = (false, String c s).
Proof.
  destruct c as [[] [] [] [] [] [] [] []]; vm_compute; intros H;
    try discriminate H; repeat split; reflexivity.
Qed.

Lemma string_of_uint_digits (d : Decimal.uint) :
  all_digits (NilEmpty.string_of_uint d) = true.
Proof. induction d; simpl; auto. Qed.

Lemma numeral_digits (n : N) : all_digits (numeral n) = true.
Proof. apply string_of_uint_digits. Qed.

Lemma numeral_nonempty (n : N) : nonempty (numeral n) = true.
Proof.
  unfold numeral. destruct n as [|p]; [reflexivity |]. simpl.
  pose proof (DecimalPos.Unsigned.to_uint_nonnil p) as Hp.
  destruct (Pos.to_uint p); [congruence | reflexivity ..].
Qed.

Lemma numeral_value (n : N) : digits_value (numeral n) = n.
Proof.
  unfold digits_value, numeral. rewrite NilEmpty.usu.
  apply DecimalN.Unsigned.of_to.
Qed.

Lemma digits_lstrip (s : string) : all_digits s = true -> lstrip s = s.
Proof.
  destruct s as [|c s']; [reflexivity |]. simpl. intros Hs.
  apply andb_prop in Hs as [Hc _].
  destruct (digit_is_plain c Hc) as (-> & _). reflexivity.
Qed.

Lemma digits_rstrip (s : string) : all_digits s = true -> rstrip s = s.
Proof.
  induction s as [|c s' IH]; [reflexivity |]. simpl. intros Hs.
  apply andb_prop in Hs as [Hc Hs'].
  rewrite (IH Hs'). destruct (digit_is_plain c Hc) as (-> & _).
  destruct s'; reflexivity.
Qed.

Lemma digits_strip (s : string) : all_digits s = true -> strip s = s.
Proof.
  intros Hs. unfold strip. rewrite (digits_lstrip s Hs). apply digits_rstrip, Hs.
Qed.

Lemma digit_not_literal_space (c : ascii) :
  is_digit c = true -> literal_space c = false.
Proof.
  intros Hc. unfold literal_space.
  destruct (digit_is_plain c Hc) as (-> & _). reflexivity.
Qed.

Lemma digits_literal_rstrip (s : string) :
  all_digits s = true -> literal_rstrip s = s.
Proof.
  induction s as [|c s' IH]; [reflexivity |]. simpl. intros Hs.
  apply andb_prop in Hs as [Hc Hs'].
  rewrite (IH Hs'), (digit_not_literal_space c Hc).
  destruct s'; reflexivity.
Qed.

Lemma digits_literal_strip (s : string) :
  all_digits s = true -> literal_strip s = s.
Proof.
  intros Hs. unfold literal_strip.
  destruct s as [|c s']; [reflexivity |].
  pose proof Hs as Hc. simpl in Hc. apply andb_prop in Hc as [Hc _].
  change (literal_lstrip (String c s'))
    with (if literal_space c then literal_lstrip s' else String c s').
  rewrite (digit_not_literal_space c Hc). apply digits_literal_rstrip, Hs.
Qed.

Lemma digits_lower (s : string) : all_digits s = true -> lower s = s.
Proof.
  induction s as [|c s' IH]; [reflexivity |]. simpl. intros Hs.
  apply andb_prop in Hs as [Hc Hs'].
  rewrite (IH Hs'). destruct (digit_is_plain c Hc) as (_ & -> & _).
  reflexivity.
Qed.

Lemma digits_not_x (s : string) : all_digits s = true -> String.eqb s "x" = false.
Proof.
  destruct s as [|c s']; [reflexivity |]. simpl. intros Hs.
  apply andb_prop in Hs as [Hc _].
  destruct (digit_is_plain c Hc) as (_ & _ & _ & -> & _). reflexivity.
Qed.

Lemma digits_take_digitpart (s : string) :
  all_digits s = true -> take_digitpart s = (s, EmptyString).
Proof.
  induction s as [|c s' IH]; [reflexivity |]. intros Hs.
  simpl in Hs. apply andb_prop in Hs as [Hc Hs'].
  specialize (IH Hs').
  destruct s' as [|u s'']; [simpl; rewrite Hc; reflexivity |].
  simpl in Hs'. apply andb_prop in Hs' as [Hu Hs''].
  destruct (digit_is_plain u Hu) as (_ & _ & Hund & _).
  change (take_digitpart (String c (String u s''))) with
    (if is_digit c then
       let '(ds, r) :=
         take_digitpart
           (if Ascii.eqb u "_" && starts_with_digit s'' then s''
            else String u s'') in
       (String c ds, r)
     else (EmptyString, String c (String u s''))).
  rewrite Hc, Hund. cbn [andb]. rewrite IH. reflexivity.
Qed.

(** [int] on a string of digits: the number it denotes when the digits are
    within the limit, the limit's [ValueError] when they are not. *)
Lemma int_digits (s : string) :
  all_digits s = true -> nonempty s = true ->
  int s =
    if within_limit s
    then Ok (Z.of_N (digits_value s))
    else Raise (too_many_digits (N.of_nat (String.length s))).
Proof.
  intros Hs Hne. unfold int. rewrite (digits_literal_strip s Hs).
  destruct s as [|c s'] eqn:E; [discriminate |].
  pose proof Hs as Hc. simpl in Hc. apply andb_prop in Hc as [Hc _].
  destruct (digit_is_plain c Hc) as (_ & _ & _ & _ & ->).
  rewrite (digits_take_digitpart _ Hs). cbv beta iota.
  change (String.prefix "_" EmptyString) with false. cbv iota.
  destruct (within_limit (String c s')); reflexivity.
Qed.

Lemma int_numeral (n : N) :
  int (numeral n) =
    if within_limit (numeral n) then Ok (Z.of_N n)
    else Raise (too_many_digits (N.of_nat (String.length (numeral n)))).
Proof.
  rewrite (int_digits _ (numeral_digits n) (numeral_nonempty n)).
  rewrite numeral_value. reflexivity.
Qed.

(** C7, as stated, fails: [long_numeral] is the decimal numeral of a number,
    10^4300 (a one and 4300 zeros), and a badge with that text makes [int],
    and so the count extractor, raise [ValueError]: the numeral has one
    digit more than [int] converts. *)
Lemma long_numeral_count_raises :
  numeral (N.of_uint long_number) = long_numeral
  /\ N.of_nat (String.length long_numeral) = 4301%N
  /\ _scrape_count (observation long_numeral) = Raise (too_many_digits 4301)
  /\ too_many_digits 4301
     = ValueError "Exceeds the limit (4300 digits) for integer string conversion: value has 4301 digits; use sys.set_int_max_str_digits() to increase the limit".
Proof.
  split.
  - unfold numeral. rewrite DecimalN.Unsigned.to_of.
    change (Decimal.unorm long_number) with long_number.
    vm_compute. reflexivity.
  - repeat split; vm_compute; reflexivity.
Qed.

(** C7 (amended): with [badge] the last [span] of the number-observed
    container, [_scrape_count] returns [None] when the badge text is [x] or
    [X] (whitespace around it aside), and the result for [x] is [None], not
    zero; when the text is the decimal numeral of [n] it returns the number
    [n] if the numeral has at most 4300 digits, and raises the [ValueError]
    of [int] if it has more. *)
Theorem count_of_badge (node box badge : tag) :
  find "div" [("class", Exact "Observation-numberObserved")] None node = Some box ->
  last (find_all "span" [] None box) = Some badge ->
  (strip (text badge) = "x" \/ strip (text badge) = "X" ->
   _scrape_count node = Ok None /\ _scrape_count node <> Ok (Some 0%Z))
  /\ (forall n : N, text badge = numeral n ->
        within_limit (numeral n) = true ->
        _scrape_count node = Ok (Some (Z.of_N n)))
  /\ (forall n : N, text badge = numeral n ->
        within_limit (numeral n) = false ->
        _scrape_count node =
          Raise (too_many_digits (N.of_nat (String.length (numeral n))))).
Proof.
  intros Hbox Hlast. unfold _scrape_count. rewrite Hbox. run.
  unfold index_last. rewrite Hlast. run. split; [| split].
  - intros [-> | ->]; simpl; split; (reflexivity || discriminate).
  - intros n -> Hlimit.
    rewrite (digits_strip _ (numeral_digits n)).
    rewrite (digits_lower _ (numeral_digits n)).
    rewrite (digits_not_x _ (numeral_digits n)). simpl.
    rewrite int_numeral, Hlimit. reflexivity.
  - intros n -> Hlimit.
    rewrite (digits_strip _ (numeral_digits n)).
    rewrite (digits_lower _ (numeral_digits n)).
    rewrite (digits_not_x _ (numeral_digits n)). simpl.
    rewrite int_numeral, Hlimit. reflexivity.
Qed.

Lemma count_of_badge_witness :
  _scrape_count (observation "X") = Ok None
  /\ _scrape_count (observation " x ") = Ok None
  /\ _scrape_count (observation "12") = Ok (Some 12%Z).
Proof.
  split; [| split].
  - eapply (proj1 (count_of_badge (observation "X") _ _ eq_refl eq_refl)).
    right. reflexivity.
  - eapply (proj1 (count_of_badge (observation " x ") _ _ eq_refl eq_refl)).
    left. reflexivity.
  - apply (proj1 (proj2 (count_of_badge (observation "12") _ _ eq_refl eq_refl))
             12%N); reflexivity.
Defined.

(** ** The registry *)

Lemma protocols_lookup (name : string) (p : policy) :
  _protocols !! name = Some p <-> (name, p) ∈ _protocols_items.
Proof.
  unfold _protocols. split.
  - apply elem_of_list_to_map_2.
  - apply elem_of_list_to_map_1.
    apply (bool_decide_eq_true_1 (NoDup _)). vm_compute. reflexivity.
Qed.

Lemma protocols_incidental :
  _protocols !! "Incidental" = Some _incidental_observations.
Proof. reflexivity. Qed.

Lemma protocols_banding : _protocols !! "Banding" = Some (_area_protocol false).
Proof. reflexivity. Qed.

(** ** Incidental observations *)

Lemma scrape_time_empty (node t : tag) :
  find "time" [] None node = Some t ->
  attrs t !! "datetime" = Some "" ->
  _scrape_time node = Ok None.
Proof.
  intros Hfind Hattr. unfold _scrape_time. rewrite Hfind. run.
  unfold getitem. rewrite Hattr. reflexivity.
Qed.

(** C4, as stated, fails: an Incidental page without a [time] element, from
    which the observers can be read, makes the policy raise. *)
Lemma incidental_without_time_element_raises :
  _scrape_protocol_name page_without_time = Ok "Incidental"
  /\ find "time" [] None page_without_time = None
  /\ _scrape_observers page_without_time = Ok ["Owner"; "Jane Doe"]
  /\ _incidental_observations page_without_time = Raise (AttributeError "attrs")
  /\ _scrape_protocol page_without_time = Raise (AttributeError "attrs").
Proof. repeat (split; [vm_compute; reflexivity |]). vm_compute. reflexivity. Qed.

(** Not only on that page: whenever the observers can be read and there is
    no [time] element, the Incidental policy raises [AttributeError]. *)
Lemma incidental_without_time_element (node : tag) (observers : list string) :
  find "time" [] None node = None ->
  _scrape_observers node = Ok observers ->
  _incidental_observations node = Raise (AttributeError "attrs")
  /\ (_scrape_protocol_name node = Ok "Incidental" ->
      _scrape_protocol node = Raise (AttributeError "attrs")).
Proof.
  intros Hfind Hobs.
  assert (_incidental_observations node = Raise (AttributeError "attrs"))
    as Hpolicy.
  { unfold _incidental_observations. rewrite (bind_ok _ _ _ Hobs). cbv beta zeta.
    unfold _scrape_time. rewrite Hfind. reflexivity. }
  split; [exact Hpolicy |]. intros Hname.
  unfold _scrape_protocol. rewrite (bind_ok _ _ _ Hname). cbv beta.
  unfold getitem. rewrite protocols_incidental. run. rewrite Hpolicy.
  reflexivity.
Qed.

(** C4 (amended): on an Incidental page whose [time] element carries an
    empty [datetime] attribute and whose observers can be read, the policy
    succeeds with the single field [observers], to which [_scrape_protocol]
    adds the protocol [name]. *)
Theorem incidental_time_optional (node t : tag) (observers : list string) :
  _scrape_protocol_name node = Ok "Incidental" ->
  find "time" [] None node = Some t ->
  attrs t !! "datetime" = Some "" ->
  _scrape_observers node = Ok observers ->
  _incidental_observations node = Ok {[ "observers" := VList observers ]}
  /\ _scrape_protocol node
     = Ok {[ "name" := VStr "Incidental"; "observers" := VList observers ]}.
Proof.
  intros Hname Hfind Hattr Hobs.
  assert (_incidental_observations node = Ok {[ "observers" := VList observers ]})
    as Hpolicy.
  { unfold _incidental_observations.
    rewrite (bind_ok _ _ _ Hobs), (bind_ok _ _ _ (scrape_time_empty _ _ Hfind Hattr)).
    reflexivity. }
  split; [exact Hpolicy |].
  unfold _scrape_protocol. rewrite (bind_ok _ _ _ Hname). cbv beta.
  unfold getitem. rewrite protocols_incidental. run. rewrite Hpolicy.
  vm_compute. reflexivity.
Qed.

Lemma incidental_time_optional_witness :
  _incidental_observations page_with_empty_time
  = Ok {[ "observers" := VList ["Owner"; "Jane Doe"] ]}
  /\ _scrape_protocol page_with_empty_time
     = Ok {[ "name" := VStr "Incidental";
             "observers" := VList ["Owner"; "Jane Doe"] ]}.
Proof.
  eapply (incidental_time_optional page_with_empty_time);
    vm_compute; reflexivity.
Defined.

(** ** The policies once the extractors have returned *)

Section fields_lookup.
Variables (time duration distance : option string)
          (area : option pyfloat * option string)
          (party_size : string) (observers : list string).

Lemma point_fields_time :
  point_fields time duration party_size observers !!! "time" = of_str time.
Proof. vm_compute. reflexivity. Qed.

Lemma point_fields_duration :
  point_fields time duration party_size observers !!! "duration"
  = of_str duration.
Proof. vm_compute. reflexivity. Qed.

Lemma point_fields_party_size :
  point_fields time duration party_size observers !!! "party_size"
  = VStr party_size.
Proof. vm_compute. reflexivity. Qed.

Lemma distance_fields_time :
  distance_fields time duration distance party_size observers !!! "time"
  = of_str time.
Proof. vm_compute. reflexivity. Qed.

Lemma distance_fields_duration :
  distance_fields time duration distance party_size observers !!! "duration"
  = of_str duration.
Proof. vm_compute. reflexivity. Qed.

Lemma distance_fields_distance :
  distance_fields time duration distance party_size observers !!! "distance"
  = of_str distance.
Proof. vm_compute. reflexivity. Qed.

Lemma distance_fields_party_size :
  distance_fields time duration distance party_size observers !!! "party_size"
  = VStr party_size.
Proof. vm_compute. reflexivity. Qed.

Lemma area_fields_time :
  area_fields time area duration party_size observers !!! "time" = of_str time.
Proof. vm_compute. reflexivity. Qed.

Lemma area_fields_area :
  area_fields time area duration party_size observers !!! "area"
  = VPair (of_float area.1) (of_str area.2).
Proof. vm_compute. reflexivity. Qed.

Lemma area_fields_duration :
  area_fields time area duration party_size observers !!! "duration"
  = of_str duration.
Proof. vm_compute. reflexivity. Qed.

Lemma area_fields_party_size :
  area_fields time area duration party_size observers !!! "party_size"
  = VStr party_size.
Proof. vm_compute. reflexivity. Qed.

(** The record of a Banding page: the area is gone, the name is added. *)
Lemma banding_record (name : string) :
  update (delete "area" (area_fields time area duration party_size observers))
    {[ "name" := VStr name ]}
  = {[ "name" := VStr name;
       "time" := of_str time;
       "duration" := of_str duration;
       "party_size" := VStr party_size;
       "observers" := VList observers ]}.
Proof. vm_compute. reflexivity. Qed.

Lemma banding_record_no_area (name : string) :
  update (delete "area" (area_fields time area duration party_size observers))
    {[ "name" := VStr name ]} !! "area" = None.
Proof. vm_compute. reflexivity. Qed.
End fields_lookup.

(** A [str] is never the pair [(None, None)]: the distance test of
    [_distance_protocol] cannot succeed. *)
Lemma distance_never_none_pair (distance : option string) :
  eq_none_pair (of_str distance) = false.
Proof. destruct distance; reflexivity. Qed.

Ltac binds := unfold mbind, mret, result_bind, result_ret; cbv beta iota.

Lemma point_protocol_run (node : tag)
    (time duration : option string) (party_size : string) (observers : list string) :
  _scrape_time node = Ok time ->
  _scrape_duration node = Ok duration ->
  _scrape_party_size node = Ok party_size ->
  _scrape_observers node = Ok observers ->
  _point_protocol node =
    if negb (truthy (of_str time)) then Raise (not_found "time")
    else if negb (truthy (of_str duration)) then Raise (not_found "duration")
    else if negb (nonempty party_size) then Raise (not_found "party size")
    else Ok (point_fields time duration party_size observers).
Proof.
  intros Ht Hd Hp Ho. unfold _point_protocol.
  rewrite Ht, Hd, Hp, Ho. binds. cbv zeta.
  fold (point_fields time duration party_size observers).
  rewrite point_fields_time, point_fields_duration, point_fields_party_size.
  reflexivity.
Qed.

Lemma distance_protocol_run (node : tag)
    (time duration distance : option string) (party_size : string)
    (observers : list string) :
  _scrape_time node = Ok time ->
  _scrape_duration node = Ok duration ->
  _scrape_distance node = Ok distance ->
  _scrape_party_size node = Ok party_size ->
  _scrape_observers node = Ok observers ->
  _distance_protocol node =
    if negb (truthy (of_str time)) then Raise (not_found "time")
    else if is_none (of_str duration) then Raise (not_found "duration")
    else if negb (nonempty party_size) then Raise (not_found "party size")
    else Ok (distance_fields time duration distance party_size observers).
Proof.
  intros Ht Hd Hdist Hp Ho. unfold _distance_protocol.
  rewrite Ht, Hd, Hdist, Hp, Ho. binds. cbv zeta.
  fold (distance_fields time duration distance party_size observers).
  rewrite distance_fields_time, distance_fields_duration,
    distance_fields_distance, distance_fields_party_size.
  rewrite distance_never_none_pair. reflexivity.
Qed.

Lemma area_protocol_run (include_area : bool) (node : tag)
    (time : option string) (area : option pyfloat * option string)
    (duration : option string) (party_size : string) (observers : list string) :
  _scrape_time node = Ok time ->
  _scrape_area node = Ok area ->
  _scrape_duration node = Ok duration ->
  _scrape_party_size node = Ok party_size ->
  _scrape_observers node = Ok observers ->
  _area_protocol include_area node =
    if negb (truthy (of_str time)) then Raise (not_found "time")
    else if include_area && eq_none_pair (VPair (of_float area.1) (of_str area.2))
         then Raise (not_found "area")
    else if is_none (of_str duration) then Raise (not_found "duration")
    else if negb (nonempty party_size) then Raise (not_found "party size")
    else Ok (if include_area
             then area_fields time area duration party_size observers
             else delete "area" (area_fields time area duration party_size observers)).
Proof.
  intros Ht Ha Hd Hp Ho. unfold _area_protocol.
  rewrite Ht, Ha, Hd, Hp, Ho. binds. cbv zeta.
  fold (area_fields time area duration party_size observers).
  rewrite area_fields_time.
  destruct (truthy (of_str time)); [| reflexivity]. cbn [negb].
  destruct include_area; cbn [andb].
  - rewrite area_fields_area.
    destruct (eq_none_pair (VPair (of_float area.1) (of_str area.2)));
      [reflexivity |].
    rewrite area_fields_duration, area_fields_party_size. reflexivity.
  - rewrite !lookup_total_delete_ne by discriminate.
    rewrite area_fields_duration, area_fields_party_size. reflexivity.
Qed.

(** A policy of the area shape that returns has heard from its five
    extractors. *)
Lemma area_protocol_returns (include_area : bool) (node : tag)
    (r : gmap string value) :
  _area_protocol include_area node = Ok r ->
  exists time area duration party_size observers,
    _scrape_time node = Ok time
    /\ _scrape_area node = Ok area
    /\ _scrape_duration node = Ok duration
    /\ _scrape_party_size node = Ok party_size
    /\ _scrape_observers node = Ok observers.
Proof.
  unfold _area_protocol, mbind, result_bind.
  destruct (_scrape_time node) as [time|]; cbv beta iota; [| discriminate].
  destruct (_scrape_area node) as [area|]; cbv beta iota; [| discriminate].
  destruct (_scrape_duration node) as [duration|]; cbv beta iota; [| discriminate].
  destruct (_scrape_party_size node) as [party|]; cbv beta iota; [| discriminate].
  destruct (_scrape_observers node) as [observers|]; cbv beta iota; [| discriminate].
  intros _. exists time, area, duration, party, observers. auto.
Qed.

(** ** Banding *)

(** C5: whenever [_scrape_protocol] succeeds on a Banding page, the record
    has no [area] key: it holds the name and the four fields the policy
    insists on, none of them absent or empty where the policy tests it,
    whatever the area extractor read from the page. *)
Theorem banding_omits_area (node : tag) (r : gmap string value) :
  _scrape_protocol_name node = Ok "Banding" ->
  _scrape_protocol node = Ok r ->
  r !! "area" = None
  /\ exists time duration party_size observers area,
       _scrape_time node = Ok (Some time) /\ nonempty time = true
       /\ _scrape_area node = Ok area
       /\ _scrape_duration node = Ok (Some duration)
       /\ _scrape_party_size node = Ok party_size
       /\ nonempty party_size = true
       /\ _scrape_observers node = Ok observers
       /\ r = {[ "name" := VStr "Banding";
                 "time" := VStr time;
                 "duration" := VStr duration;
                 "party_size" := VStr party_size;
                 "observers" := VList observers ]}.
Proof.
  intros Hname. unfold _scrape_protocol.
  rewrite (bind_ok _ _ _ Hname). cbv beta.
  unfold getitem. rewrite protocols_banding. binds.
  destruct (_area_protocol false node) as [fields|] eqn:Hpolicy;
    cbv beta iota; [| discriminate].
  intros [= <-].
  destruct (area_protocol_returns _ _ _ Hpolicy)
    as (time & area & duration & party & observers & Ht & Ha & Hd & Hp & Ho).
  rewrite (area_protocol_run false node _ _ _ _ _ Ht Ha Hd Hp Ho) in Hpolicy.
  destruct time as [[|c time]|]; cbn [negb truthy of_str nonempty] in Hpolicy;
    try discriminate Hpolicy.
  destruct duration as [duration|]; cbn [andb is_none of_str] in Hpolicy;
    try discriminate Hpolicy.
  destruct party as [|c' party]; cbn [negb nonempty] in Hpolicy;
    try discriminate Hpolicy.
  injection Hpolicy as <-. split.
  - apply banding_record_no_area.
  - exists (String c time), duration, (String c' party), observers, area.
    repeat (split; [reflexivity || assumption |]). apply banding_record.
Qed.

Lemma banding_omits_area_witness :
  _scrape_area page_banding_with_area
  = Ok (Some (Finite false 25 (-1)), Some "ha")
  /\ _scrape_protocol page_banding_with_area
     = Ok {[ "name" := VStr "Banding";
             "time" := VStr "06:30 AM";
             "duration" := VStr "4 hr";
             "party_size" := VStr "3";
             "observers" := VList ["Owner"; "Jane Doe"] ]}
  /\ ({[ "name" := VStr "Banding";
         "time" := VStr "06:30 AM";
         "duration" := VStr "4 hr";
         "party_size" := VStr "3";
         "observers" := VList ["Owner"; "Jane Doe"] ]} : gmap string value)
       !! "area" = None.
Proof.
  split; [vm_compute; reflexivity |].
  split; [vm_compute; reflexivity |].
  apply (banding_omits_area page_banding_with_area); vm_compute; reflexivity.
Defined.

(** ** The area extractor *)

(** What [_scrape_area] does once the [dd] next to the label is in hand and
    its text splits into at least one token. *)
Lemma scrape_area_found (node dt row dd : tag) (v0 : string) (rest : list string) :
  find "dt" [] (Some (Pattern area_label)) node = Some dt ->
  parent dt = Some row ->
  find "dd" [] None row = Some dd ->
  split_ws (lower (text dd)) = v0 :: rest ->
  _scrape_area node =
    area ← float v0;
    v1 ← index rest 0;
    units ← getitem _scrape_area_units v1;
    Ok (Some area, Some units).
Proof.
  intros Hdt Hrow Hdd Hvalues. unfold _scrape_area.
  rewrite Hdt, Hrow. run. rewrite Hdd. run. rewrite Hvalues.
  reflexivity.
Qed.

(** A failure of the area extractor leaves the area policies as it is,
    unless the time extractor, which runs first, failed already. *)
Lemma area_failure_aborts (include_area : bool) (node : tag) (e : exn) :
  _scrape_area node = Raise e ->
  exists e', _area_protocol include_area node = Raise e'
             /\ (is_ok (_scrape_time node) = true -> e' = e).
Proof.
  intros Harea. unfold _area_protocol.
  destruct (_scrape_time node) as [time|e1]; run.
  - rewrite Harea. run. eauto.
  - exists e1. split; [reflexivity | discriminate].
Qed.

(** [str.split] cuts at any whitespace: a no-break space between the number
    and the unit separates them as a space does, and the area is read. *)
Lemma area_after_no_break_space :
  split_ws (lower (String "2" (String "." (String "5" (String "160" "hectares")))))
  = ["2.5"; "hectares"]
  /\ _scrape_area page_banding_no_break_space
     = Ok (Some (Finite false 25 (-1)), Some "ha")
  /\ is_ok (_scrape_protocol page_banding_no_break_space) = true.
Proof. repeat split; vm_compute; reflexivity. Qed.

(** C9: on a Banding page the area extractor still runs. With the [dd] of
    the area label found and its lowered text split into tokens,
    [_scrape_protocol] raises: the [ValueError] of [float] when the first
    token is not a number, the [KeyError] of the unit table when the second
    is not one of its keys (or the failure of the time extractor, when that
    one failed first). *)
Theorem banding_still_reads_area
    (node dt row dd : tag) (v0 : string) (rest : list string) :
  _scrape_protocol_name node = Ok "Banding" ->
  find "dt" [] (Some (Pattern area_label)) node = Some dt ->
  parent dt = Some row ->
  find "dd" [] None row = Some dd ->
  split_ws (lower (text dd)) = v0 :: rest ->
  (forall e, float v0 = Raise e ->
     exists e', _scrape_protocol node = Raise e'
                /\ (is_ok (_scrape_time node) = true -> e' = e))
  /\ (forall f v1 rest', float v0 = Ok f -> rest = v1 :: rest' ->
        _scrape_area_units !! v1 = None ->
        exists e', _scrape_protocol node = Raise e'
                   /\ (is_ok (_scrape_time node) = true -> e' = KeyError v1)).
Proof.
  intros Hname Hdt Hrow Hdd Hvalues.
  pose proof (scrape_area_found _ _ _ _ _ _ Hdt Hrow Hdd Hvalues) as Harea.
  assert (forall e, _scrape_area node = Raise e ->
            exists e', _scrape_protocol node = Raise e'
                       /\ (is_ok (_scrape_time node) = true -> e' = e)) as Habort.
  { intros e He. destruct (area_failure_aborts false node e He) as (e' & Hp & Ht).
    exists e'. split; [| exact Ht].
    unfold _scrape_protocol. rewrite (bind_ok _ _ _ Hname). cbv beta.
    unfold getitem. rewrite protocols_banding. run. rewrite Hp. reflexivity. }
  split.
  - intros e He. apply Habort. rewrite Harea, He. reflexivity.
  - intros f v1 rest' Hf -> Hunit. apply Habort.
    rewrite Harea, Hf. run. unfold getitem. rewrite Hunit. reflexivity.
Qed.

Lemma banding_still_reads_area_witness :
  _scrape_protocol page_banding_unknown_unit = Raise (KeyError "roods")
  /\ _scrape_protocol page_banding_no_number
     = Raise (ValueError "could not convert string to float: 'several'").
Proof.
  split.
  - edestruct (proj2 (banding_still_reads_area page_banding_unknown_unit
                        _ _ _ "2.5" ["roods"] eq_refl eq_refl eq_refl eq_refl eq_refl)
                 (Finite false 25 (-1)) "roods" [] eq_refl eq_refl eq_refl)
      as (e' & Hp & He).
    rewrite Hp, (He eq_refl). reflexivity.
  - edestruct (proj1 (banding_still_reads_area page_banding_no_number
                        _ _ _ "several" ["hectares"] eq_refl eq_refl eq_refl eq_refl eq_refl)
                 (invalid_float "several") eq_refl)
      as (e' & Hp & He).
    rewrite Hp, (He eq_refl). reflexivity.
Defined.

(** ** Unit tokens *)

(** The area table, entry by entry. *)
Lemma area_units_table (k u : string) :
  _scrape_area_units !! k = Some u <->
  (k, u) ∈ [ ("hectare(s)", "ha"); ("hectares", "ha"); ("ha", "ha");
             ("acre(s)", "acre"); ("acres", "acre") ].
Proof.
  unfold _scrape_area_units. split.
  - apply elem_of_list_to_map_2.
  - apply elem_of_list_to_map_1.
    apply (bool_decide_eq_true_1 (NoDup _)). vm_compute. reflexivity.
Qed.

(** The area extractor sends the second token through its table: a key
    yields its abbreviation, anything else the [KeyError] of the lookup. *)
Lemma area_unit_normalized
    (node dt row dd : tag) (v0 v1 : string) (rest : list string) (f : pyfloat) :
  find "dt" [] (Some (Pattern area_label)) node = Some dt ->
  parent dt = Some row ->
  find "dd" [] None row = Some dd ->
  split_ws (lower (text dd)) = v0 :: v1 :: rest ->
  float v0 = Ok f ->
  _scrape_area node =
    match _scrape_area_units !! v1 with
    | Some u => Ok (Some f, Some u)
    | None => Raise (KeyError v1)
    end.
Proof.
  intros Hdt Hrow Hdd Hvalues Hf.
  rewrite (scrape_area_found _ _ _ _ _ _ Hdt Hrow Hdd Hvalues), Hf.
  run. unfold getitem. destruct (_scrape_area_units !! v1); reflexivity.
Qed.

(** The distance extractor returns the text of the badge as it stands. *)
Lemma scrape_distance_raw (node dist badge : tag) :
  find "span" [("title", Pattern distance_label)] None node = Some dist ->
  find "span" [("class", Exact "Badge-label")] None dist = Some badge ->
  _scrape_distance node = Ok (Some (text badge)).
Proof.
  intros Hdist Hbadge. unfold _scrape_distance. rewrite Hdist, Hbadge.
  reflexivity.
Qed.

(** C3 at its failing inputs: the distance extractor hands back
    ["2.5 kilometers"] although its table maps [kilometers] to [km], and
    ["3 furlongs"] although [furlongs] is not in the table; the area
    extractor on the same kind of input normalizes and fails. *)
Theorem distance_unit_not_normalized :
  _scrape_distance_units !! "kilometers" = Some "km"
  /\ _scrape_distance (page_traveling (Some "2.5 kilometers"))
     = Ok (Some "2.5 kilometers")
  /\ _scrape_distance_units !! "furlongs" = None
  /\ _scrape_distance (page_traveling (Some "3 furlongs"))
     = Ok (Some "3 furlongs")
  /\ _scrape_area page_banding_with_area
     = Ok (Some (Finite false 25 (-1)), Some "ha")
  /\ _scrape_area page_banding_unknown_unit = Raise (KeyError "roods").
Proof. repeat (split; [vm_compute; reflexivity |]). vm_compute. reflexivity. Qed.

(** ** Mandatory fields *)

Lemma protocols_by_shape :
  _protocols_items = map (fun ns => (ns.1, policy_of ns.2)) _protocols_shapes.
Proof. reflexivity. Qed.

Lemma protocols_shape_lookup (name : string) (s : shape) :
  (name, s) ∈ _protocols_shapes -> _protocols !! name = Some (policy_of s).
Proof.
  intros Hin. apply protocols_lookup. rewrite protocols_by_shape.
  apply (list_elem_of_fmap_2 (fun ns => (ns.1, policy_of ns.2)) _ _ Hin).
Qed.

(** Every key of the registry is in [_protocols_shapes], with its policy. *)
Lemma protocols_shape_complete (name : string) (p : policy) :
  _protocols !! name = Some p ->
  exists s, (name, s) ∈ _protocols_shapes /\ p = policy_of s.
Proof.
  intros Hp. apply protocols_lookup in Hp. rewrite protocols_by_shape in Hp.
  apply list_elem_of_fmap_1 in Hp as ([n s] & [= -> ->] & Hin). eauto.
Qed.

Lemma scrape_time_nonempty (node : tag) (t : string) :
  _scrape_time node = Ok (Some t) -> t <> "".
Proof.
  unfold _scrape_time.
  destruct (find "time" [] None node) as [e|]; [| discriminate]. run.
  destruct (getitem (attrs e) "datetime") as [v|]; [| discriminate]. run.
  destruct (nonempty v); [| discriminate].
  destruct (strptime v) as [dt|]; [| discriminate]. run.
  intros [= <-]. discriminate.
Qed.

(** C1, as stated, fails: a Stationary page with everything but the duration
    makes the policy raise a [ValueError] that names the field, not the
    protocol. *)
Lemma missing_duration_message_omits_protocol :
  _protocols !! "Stationary" = Some _point_protocol
  /\ _scrape_duration page_stationary_no_duration = Ok None
  /\ _scrape_time page_stationary_no_duration = Ok (Some "07:05 AM")
  /\ _scrape_party_size page_stationary_no_duration = Ok "2"
  /\ _scrape_observers page_stationary_no_duration = Ok ["Owner"; "Jane Doe"]
  /\ _point_protocol page_stationary_no_duration
     = Raise (ValueError "the duration field was not found")
  /\ ~ names_field_and_protocol
         (_point_protocol page_stationary_no_duration) Duration "Stationary".
Proof.
  split; [reflexivity |].
  repeat (split; [vm_compute; reflexivity |]).
  intros (msg & Hr & _ & Hp). vm_compute in Hr. injection Hr as <-.
  vm_compute in Hp. discriminate.
Qed.

Ltac unpack :=
  repeat match goal with
  | H : _ \/ _ |- _ => destruct H
  | H : exists _, _ |- _ => destruct H
  | H : _ = Point /\ _ |- _ => destruct H as [[=] ?]
  | H : _ /\ _ |- _ => destruct H
  | H : Point = Point -> _ |- _ => specialize (H eq_refl)
  | H : _ = Point -> _ |- _ => clear H
  end.

Ltac get_present Hp g :=
  first [ let H := fresh "P" in
          assert (H := Hp g ltac:(repeat constructor) ltac:(discriminate));
          simpl in H
        | idtac ].

Ltac invert_elem H :=
  repeat (apply elem_of_cons in H as [H | H]);
  [.. | apply elem_of_nil in H; destruct H].

(** The policy of a shape, run on a page where one tested field is absent
    and the others are there, raises the [ValueError] of that field. *)
Lemma policy_reports (s : shape) (f : field) (node : tag) :
  f ∈ tested s ->
  absent s f node ->
  (forall g, g ∈ tested s -> g <> f -> present s g node) ->
  others_return s node ->
  policy_of s node = Raise (ValueError (message f)).
Proof.
  intros Hf Ha Hp [Hobs Hother].
  destruct (_scrape_observers node) as [observers|] eqn:Eobs;
    [clear Hobs | discriminate Hobs].
  destruct s as [| | | |[|]]; simpl in Hf; invert_elem Hf; subst f;
    get_present Hp Time; get_present Hp Duration; get_present Hp Area;
    get_present Hp PartySize; simpl in Ha; clear Hp; unpack.
  all: try match goal with
       | H : _scrape_time _ = Ok (Some ?t) |- _ =>
           pose proof (scrape_time_nonempty _ _ H);
           destruct t; [congruence |]
       end.
  all: try match goal with
       | H : ?d <> "", E : _scrape_duration _ = Ok (Some ?d) |- _ =>
           destruct d; [congruence |]
       end.
  all: try match goal with
       | H : ?p <> "", E : _scrape_party_size _ = Ok ?p |- _ =>
           destruct p; [congruence |]
       end.
  all: try (destruct (_scrape_distance node) as [distance|] eqn:Edist;
            [| discriminate Hother]).
  all: try (destruct (_scrape_area node) as [area|] eqn:Earea;
            [| discriminate Hother]).
  all: unfold policy_of.
  all: first [ erewrite point_protocol_run by eassumption
             | erewrite distance_protocol_run by eassumption
             | erewrite area_protocol_run by eassumption ].
  all: try (destruct duration as [[|? ?]|]); reflexivity.
Qed.

Lemma message_names_field (f : field) : contains (label f) (message f) = true.
Proof. destruct f; reflexivity. Qed.

Lemma message_omits_protocol (name : string) (s : shape) (f : field) :
  (name, s) ∈ _protocols_shapes -> contains name (message f) = false.
Proof.
  intros Hin. unfold _protocols_shapes in Hin. invert_elem Hin.
  all: injection Hin as -> _; destruct f; vm_compute; reflexivity.
Qed.

(** C1 (amended): for every registered protocol and every field its policy
    tests (time, duration, party size, and area under the area-inclusive
    policy), if the extractor of that field reports it absent while the
    other tested fields are there and the remaining extractors return, the
    policy raises [ValueError "the <field> field was not found"]: the
    message names the field and does not name the protocol. *)
Theorem missing_field_reported (name : string) (s : shape) (f : field) (node : tag) :
  (name, s) ∈ _protocols_shapes ->
  f ∈ tested s ->
  absent s f node ->
  (forall g, g ∈ tested s -> g <> f -> present s g node) ->
  others_return s node ->
  exists p, _protocols !! name = Some p
            /\ p node = Raise (ValueError (message f))
            /\ contains (label f) (message f) = true
            /\ contains name (message f) = false.
Proof.
  intros Hin Hf Ha Hp Ho. exists (policy_of s).
  split; [apply protocols_shape_lookup, Hin |].
  split; [apply policy_reports; assumption |].
  split; [apply message_names_field | apply (message_omits_protocol name s f Hin)].
Qed.

Lemma missing_field_reported_witness :
  exists p, _protocols !! "Stationary" = Some p
            /\ p page_stationary_no_duration
               = Raise (ValueError "the duration field was not found")
            /\ contains "duration" "the duration field was not found" = true
            /\ contains "Stationary" "the duration field was not found" = false.
Proof.
  apply (missing_field_reported "Stationary" Point Duration
           page_stationary_no_duration).
  - repeat constructor.
  - repeat constructor.
  - left. vm_compute. reflexivity.
  - intros g Hg Hne. destruct g.
    + exists "07:05 AM". vm_compute. reflexivity.
    + destruct (Hne eq_refl).
    + simpl in Hg. exfalso. invert_elem Hg; discriminate Hg.
    + exists "2". split; [vm_compute; reflexivity | discriminate].
  - split; [vm_compute; reflexivity | exact I].
Defined.

(** The slip next to C1 and C3: [_scrape_distance] returns [None] for a
    missing distance, [_distance_protocol] tests for [(None, None)], and a
    page without distance yields a record whose distance is [None]. *)
Lemma missing_distance_unnoticed (node : tag)
    (time duration : string) (party_size : string) (observers : list string) :
  _scrape_time node = Ok (Some time) ->
  _scrape_duration node = Ok (Some duration) ->
  _scrape_distance node = Ok None ->
  _scrape_party_size node = Ok party_size ->
  party_size <> "" ->
  _scrape_observers node = Ok observers ->
  _distance_protocol node
  = Ok (distance_fields (Some time) (Some duration) None party_size observers)
  /\ distance_fields (Some time) (Some duration) None party_size observers
       !! "distance" = Some VNone.
Proof.
  intros Ht Hd Hdist Hp Hne Ho.
  rewrite (distance_protocol_run node _ _ _ _ _ Ht Hd Hdist Hp Ho).
  pose proof (scrape_time_nonempty _ _ Ht).
  destruct time; [congruence |]. destruct party_size; [congruence |].
  split; [reflexivity | vm_compute; reflexivity].
Qed.

Lemma missing_distance_unnoticed_example :
  _scrape_distance (page_traveling None) = Ok None
  /\ _distance_protocol (page_traveling None)
     = Ok (distance_fields (Some "07:05 AM") (Some "30 min") None "2"
             ["Owner"; "Jane Doe"]).
Proof.
  split; [vm_compute; reflexivity |].
  apply (missing_distance_unnoticed (page_traveling None));
    solve [vm_compute; reflexivity | discriminate].
Qed.

(* ===================================================================== *)
(** * Further properties of the scraper                                  *)
(* ===================================================================== *)

Lemma append_String (c : ascii) (a b : string) :
  (String c a ++ b)%string = String c (a ++ b)%string.
Proof. reflexivity. Qed.

Lemma append_nil_l (s : string) : (EmptyString ++ s)%string = s.
Proof. reflexivity. Qed.

Lemma append_nil_r (s : string) : (s ++ EmptyString)%string = s.
Proof.
  induction s as [|x s IH]; [reflexivity |].
  rewrite append_String, IH. reflexivity.
Qed.

Lemma append_assoc (a b c : string) :
  ((a ++ b) ++ c)%string = (a ++ (b ++ c))%string.
Proof.
  induction a as [|x a IH]; [reflexivity |].
  rewrite !append_String, IH. reflexivity.
Qed.

Lemma append_empty (a b : string) :
  (a ++ b)%string = EmptyString -> a = EmptyString /\ b = EmptyString.
Proof. destruct a; [auto | rewrite append_String; discriminate]. Qed.

Lemma append_cons (a b : string) (c : ascii) (s : string) :
  (a ++ b)%string = String c s ->
  (a = EmptyString /\ b = String c s)
  \/ exists a', a = String c a' /\ s = (a' ++ b)%string.
Proof.
  destruct a as [|x a']; [auto |]. rewrite append_String.
  intros [= -> <-]. right. eauto.
Qed.

Lemma lang_void_inv (s : string) : ~ lang Void s.
Proof. intros H. inversion H. Qed.

Lemma lang_eps_inv (s : string) : lang Eps s -> s = EmptyString.
Proof. intros H. inversion H. reflexivity. Qed.

Lemma lang_chr_inv (c : ascii) (s : string) :
  lang (Chr c) s -> s = String c EmptyString.
Proof. intros H. inversion H. reflexivity. Qed.

Lemma lang_range_inv (lo hi : ascii) (s : string) :
  lang (Range lo hi) s ->
  exists c, s = String c EmptyString
            /\ ((code lo <=? code c) && (code c <=? code hi))%N = true.
Proof. intros H. inversion H; subst. eauto 10. Qed.

Lemma lang_space_inv (s : string) :
  lang Space s -> exists c, s = String c EmptyString /\ isspace c = true.
Proof. intros H. inversion H; subst. eauto 10. Qed.

Lemma lang_cat_inv (r1 r2 : regex) (s : string) :
  lang (Cat r1 r2) s ->
  exists s1 s2, s = (s1 ++ s2)%string /\ lang r1 s1 /\ lang r2 s2.
Proof. intros H. inversion H; subst. eauto 10. Qed.

Lemma lang_alt_inv (r1 r2 : regex) (s : string) :
  lang (Alt r1 r2) s -> lang r1 s \/ lang r2 s.
Proof. intros H. inversion H; auto. Qed.

Lemma lang_star_inv (r : regex) (s : string) :
  lang (Star r) s ->
  s = EmptyString
  \/ exists s1 s2, s = (s1 ++ s2)%string /\ lang r s1 /\ lang (Star r) s2.
Proof. intros H. inversion H; subst; [left | right]; eauto 10. Qed.

Lemma nullable_lang (r : regex) : nullable r = true <-> lang r EmptyString.
Proof.
  split.
  - induction r; simpl; intros H; try discriminate.
    + constructor.
    + apply andb_prop in H as [H1 H2].
      rewrite <- (append_nil_l EmptyString). constructor; auto.
    + apply orb_prop in H as [H | H]; [apply lang_alt_l | apply lang_alt_r]; auto.
    + constructor.
  - induction r; simpl; intros H.
    + destruct (lang_void_inv _ H).
    + reflexivity.
    + apply lang_chr_inv in H. discriminate.
    + apply lang_range_inv in H as (c & H & _). discriminate.
    + apply lang_space_inv in H as (c & H & _). discriminate.
    + apply lang_cat_inv in H as (s1 & s2 & E & H1 & H2).
      symmetry in E. apply append_empty in E as [-> ->].
      rewrite IHr1, IHr2; auto.
    + apply lang_alt_inv in H as [H | H].
      * rewrite IHr1; auto.
      * rewrite IHr2; auto. apply orb_true_r.
    + reflexivity.
Qed.

(** A non-empty word of a starred pattern starts with a non-empty word of
    the pattern. *)
Lemma lang_star_cons_inv (r : regex) (c : ascii) (s : string) :
  lang (Star r) (String c s) ->
  exists s1 s2, s = (s1 ++ s2)%string /\ lang r (String c s1) /\ lang (Star r) s2.
Proof.
  intros H. remember (Star r) as r' eqn:Er. remember (String c s) as s' eqn:Es.
  revert s Es. induction H; try discriminate; intros s Es.
  injection Er as ->.
  apply append_cons in Es as [[-> ->] | (a' & -> & ->)].
  - apply IHlang2; auto.
  - eauto.
Qed.

Lemma deriv_lang (r : regex) (c : ascii) (s : string) :
  lang (deriv c r) s <-> lang r (String c s).
Proof.
  revert s. induction r; intros s; simpl.
  - split; intros H; destruct (lang_void_inv _ H).
  - split; intros H; [destruct (lang_void_inv _ H) |].
    apply lang_eps_inv in H. discriminate.
  - destruct (Ascii.eqb_spec c c0) as [->|Hne]; split; intros H.
    + apply lang_eps_inv in H as ->. constructor.
    + apply lang_chr_inv in H. injection H as ->. constructor.
    + destruct (lang_void_inv _ H).
    + apply lang_chr_inv in H. congruence.
  - destruct ((code lo <=? code c) && (code c <=? code hi))%N eqn:E;
      split; intros H.
    + apply lang_eps_inv in H as ->. constructor. auto.
    + apply lang_range_inv in H as (c' & [= -> ->] & _). constructor.
    + destruct (lang_void_inv _ H).
    + apply lang_range_inv in H as (c' & [= -> ->] & H). congruence.
  - destruct (isspace c) eqn:E; split; intros H.
    + apply lang_eps_inv in H as ->. constructor. auto.
    + apply lang_space_inv in H as (c' & [= -> ->] & _). constructor.
    + destruct (lang_void_inv _ H).
    + apply lang_space_inv in H as (c' & [= -> ->] & H). congruence.
  - assert (lang (Cat (deriv c r1) r2) s \/ (nullable r1 = true /\ lang (deriv c r2) s)
            <-> lang (Cat r1 r2) (String c s)) as Hcat.
    { split.
      - intros [H | [Hn H]].
        + apply lang_cat_inv in H as (s1 & s2 & -> & H1 & H2).
          apply IHr1 in H1. rewrite <- append_String. constructor; auto.
        + apply IHr2 in H. apply nullable_lang in Hn.
          rewrite <- (append_nil_l (String c s)). constructor; auto.
      - intros H. apply lang_cat_inv in H as (s1 & s2 & E & H1 & H2).
        symmetry in E.
        apply append_cons in E as [[-> ->] | (a' & -> & ->)].
        + right. split; [apply nullable_lang; auto | apply IHr2; auto].
        + left. constructor; [apply IHr1; auto | auto]. }
    destruct (nullable r1).
    + rewrite <- Hcat. split.
      * intros H. apply lang_alt_inv in H as [H | H]; auto.
      * intros [H | [_ H]]; [apply lang_alt_l | apply lang_alt_r]; auto.
    + rewrite <- Hcat. split; [auto | intros [H | [H _]]; [auto | discriminate]].
  - split; intros H; apply lang_alt_inv in H as [H | H].
    + apply lang_alt_l, IHr1; auto.
    + apply lang_alt_r, IHr2; auto.
    + apply lang_alt_l, IHr1; auto.
    + apply lang_alt_r, IHr2; auto.
  - split.
    + intros H. apply lang_cat_inv in H as (s1 & s2 & -> & H1 & H2).
      apply IHr in H1. rewrite <- append_String. constructor; auto.
    + intros H. apply lang_star_cons_inv in H as (s1 & s2 & -> & H1 & H2).
      constructor; [apply IHr; auto | auto].
Qed.

Lemma fullmatch_lang (r : regex) (s : string) : fullmatch r s = true <-> lang r s.
Proof.
  revert r. induction s as [|c s IH]; intros r; simpl.
  - apply nullable_lang.
  - rewrite IH. apply deriv_lang.
Qed.

(** ** [match], [search] and [in] *)

Lemma match_lang (r : regex) (s : string) :
  match_ r s = true <-> exists m b, s = (m ++ b)%string /\ lang r m.
Proof.
  revert r. induction s as [|c s IH]; intros r; simpl.
  - rewrite orb_false_r, nullable_lang. split.
    + intros H. exists EmptyString, EmptyString. auto.
    + intros (m & b & E & H). symmetry in E.
      apply append_empty in E as [-> _]. exact H.
  - split.
    + intros H. apply orb_prop in H as [H | H].
      * apply nullable_lang in H. exists EmptyString, (String c s). auto.
      * apply IH in H as (m & b & -> & H). apply deriv_lang in H.
        exists (String c m), b. auto.
    + intros (m & b & E & H). symmetry in E.
      apply append_cons in E as [[-> _] | (m' & -> & ->)].
      * apply nullable_lang in H. rewrite H. reflexivity.
      * apply orb_true_intro. right. apply IH. exists m', b.
        split; [reflexivity | apply deriv_lang, H].
Qed.

Lemma search_lang (r : regex) (s : string) :
  search r s = true <-> exists a m b, s = (a ++ m ++ b)%string /\ lang r m.
Proof.
  induction s as [|c s IH].
  - change (search r EmptyString) with (match_ r EmptyString || false).
    rewrite orb_false_r, match_lang. split.
    + intros (m & b & E & H). exists EmptyString, m, b. auto.
    + intros (a & m & b & E & H). symmetry in E.
      apply append_empty in E as [-> E]. apply append_empty in E as [-> ->].
      exists EmptyString, EmptyString. auto.
  - change (search r (String c s)) with (match_ r (String c s) || search r s).
    split.
    + intros H. apply orb_prop in H as [H | H].
      * apply match_lang in H as (m & b & E & H). exists EmptyString, m, b. auto.
      * apply IH in H as (a & m & b & -> & H). exists (String c a), m, b. auto.
    + intros (a & m & b & E & H). apply orb_true_intro.
      destruct a as [|x a].
      * left. apply match_lang. exists m, b. auto.
      * right. rewrite append_String in E. injection E as -> ->.
        apply IH. eauto.
Qed.

Lemma prefix_append (p s : string) :
  String.prefix p s = true <-> exists b, s = (p ++ b)%string.
Proof.
  revert s. induction p as [|x p IH]; intros s.
  - split; [eauto | destruct s; reflexivity].
  - destruct s as [|y s].
    + split; [discriminate | intros (b & E); discriminate E].
    + change (String.prefix (String x p) (String y s))
        with (if ascii_dec x y then String.prefix p s else false).
      destruct (ascii_dec x y) as [->|Hne].
      * rewrite IH. split; intros (b & E); exists b.
        -- rewrite append_String, E. reflexivity.
        -- rewrite append_String in E. congruence.
      * split; [discriminate |]. intros (b & E).
        rewrite append_String in E. congruence.
Qed.

Lemma contains_append (needle s : string) :
  contains needle s = true <-> exists a b, s = (a ++ needle ++ b)%string.
Proof.
  induction s as [|c s IH].
  - change (contains needle EmptyString)
      with (String.prefix needle EmptyString || false).
    rewrite orb_false_r, prefix_append. split.
    + intros (b & E). exists EmptyString, b. exact E.
    + intros (a & b & E). symmetry in E.
      apply append_empty in E as [-> E]. exists b. auto.
  - change (contains needle (String c s))
      with (String.prefix needle (String c s) || contains needle s).
    split.
    + intros H. apply orb_prop in H as [H | H].
      * apply prefix_append in H as (b & E). exists EmptyString, b. exact E.
      * apply IH in H as (a & b & ->). exists (String c a), b. reflexivity.
    + intros (a & b & E). apply orb_true_intro. destruct a as [|x a].
      * left. apply prefix_append. eauto.
      * right. rewrite append_String in E. injection E as -> ->.
        apply IH. eauto.
Qed.

Lemma lang_lit (w s : string) : lang (Lit w) s <-> s = w.
Proof.
  revert s. induction w as [|c w IH]; intros s; simpl.
  - split; [apply lang_eps_inv | intros ->; constructor].
  - split.
    + intros H. apply lang_cat_inv in H as (s1 & s2 & -> & H1 & H2).
      apply lang_chr_inv in H1 as ->. apply IH in H2 as ->. reflexivity.
    + intros ->. rewrite <- (append_nil_l w), <- append_String.
      constructor; [constructor | apply IH; reflexivity].
Qed.

Lemma lang_cat_l (r1 r2 : regex) (s : string) :
  lang r1 s -> lang r2 EmptyString -> lang (Cat r1 r2) s.
Proof.
  intros H1 H2. rewrite <- (append_nil_r s). apply lang_cat; assumption.
Qed.

Lemma lang_cat_r (r1 r2 : regex) (s : string) :
  lang r1 EmptyString -> lang r2 s -> lang (Cat r1 r2) s.
Proof.
  intros H1 H2. rewrite <- (append_nil_l s). apply lang_cat; assumption.
Qed.

(** The label patterns [\s*[Xx]rest[:]?\s*] are searched for, so the
    optional parts do not matter: a text matches when it contains [Xrest]
    or [xrest]. *)
Lemma label_pattern_search (upper lower : ascii) (rest s : string) :
  search (label_pattern upper lower rest) s
  = contains (String upper rest) s || contains (String lower rest) s.
Proof.
  apply eq_true_iff_eq. rewrite orb_true_iff, search_lang, !contains_append.
  unfold label_pattern. split.
  - intros (a & m & b & -> & H).
    apply lang_cat_inv in H as (ws & m1 & -> & _ & H).
    apply lang_cat_inv in H as (cs & m2 & -> & Hc & H).
    apply lang_cat_inv in H as (w & m3 & -> & Hw & _).
    apply lang_lit in Hw as ->.
    assert (((a ++ (ws ++ cs ++ rest ++ m3) ++ b)
             = (a ++ ws) ++ (cs ++ rest) ++ (m3 ++ b))%string) as E.
    { rewrite !append_assoc. reflexivity. }
    rewrite E.
    apply lang_alt_inv in Hc as [Hc | Hc]; apply lang_chr_inv in Hc as ->;
      [left | right]; exists (a ++ ws)%string, (m3 ++ b)%string; reflexivity.
  - assert (forall c, c = upper \/ c = lower ->
              lang (Cat (Star Space)
                      (Cat (Alt (Chr upper) (Chr lower))
                         (Cat (Lit rest) (Cat (Opt (Chr ":")) (Star Space)))))
                   (String c rest)) as Hl.
    { intros c Hc. apply lang_cat_r; [apply lang_star_nil |].
      change (String c rest) with (String c EmptyString ++ rest)%string.
      apply lang_cat.
      - destruct Hc as [-> | ->]; [apply lang_alt_l | apply lang_alt_r];
          apply lang_chr.
      - apply lang_cat_l; [apply lang_lit; reflexivity |].
        apply lang_cat_l; [apply lang_alt_r, lang_eps | apply lang_star_nil]. }
    intros [(a & b & ->) | (a & b & ->)].
    + exists a, (String upper rest), b. auto.
    + exists a, (String lower rest), b. auto.
Qed.

Lemma in_all_ascii (c : ascii) : In c all_ascii.
Proof.
  unfold all_ascii. apply in_map_iff. exists (nat_of_ascii c). split.
  - apply ascii_nat_embedding.
  - apply in_seq. pose proof (nat_ascii_bounded c). lia.
Qed.

Lemma in_chars_where (p : ascii -> bool) (c : ascii) :
  p c = true -> In (String c EmptyString) (chars_where p).
Proof.
  intros H. unfold chars_where. apply in_map_iff. exists c.
  split; [reflexivity |]. apply filter_In.
  split; [apply in_all_ascii | exact H].
Qed.

Lemma words_sound (r : regex) (s : string) :
  lang r s -> forall l, words r = Some l -> In s l.
Proof.
  induction 1 as [ | c | lo hi c Hc | c Hc | r1 r2 s1 s2 H1 IH1 H2 IH2
                 | r1 r2 s H IH | r1 r2 s H IH | r | r s1 s2 H1 IH1 H2 IH2 ];
    simpl; intros l Hl.
  - injection Hl as <-. left. reflexivity.
  - injection Hl as <-. left. reflexivity.
  - injection Hl as <-. apply in_chars_where, Hc.
  - injection Hl as <-. apply in_chars_where, Hc.
  - destruct (words r1) as [l1|]; [| discriminate].
    destruct (words r2) as [l2|]; [| discriminate].
    injection Hl as <-. apply in_flat_map. exists s1.
    split; [apply IH1; reflexivity |].
    apply in_map_iff. exists s2. split; [reflexivity | apply IH2; reflexivity].
  - destruct (words r1) as [l1|]; [| discriminate].
    destruct (words r2) as [l2|]; [| discriminate].
    injection Hl as <-. apply in_or_app. left. apply IH. reflexivity.
  - destruct (words r1) as [l1|]; [| discriminate].
    destruct (words r2) as [l2|]; [| discriminate].
    injection Hl as <-. apply in_or_app. right. apply IH. reflexivity.
  - discriminate.
  - discriminate.
Qed.

Lemma field_bound (r : regex) (p : Z -> bool) (s : string) (n : Z) :
  field_within r p = true -> Py.field r s = Some n -> p n = true.
Proof.
  unfold field_within, Py.field. intros Hall.
  destruct (words r) as [l|] eqn:Hl; [| discriminate].
  destruct (fullmatch r s) eqn:Hm; [| discriminate].
  apply fullmatch_lang in Hm. pose proof (words_sound _ _ Hm _ Hl) as Hin.
  rewrite forallb_forall in Hall. specialize (Hall s Hin).
  destruct (int s) as [k|]; [| discriminate]. intros [= <-]. exact Hall.
Qed.

Lemma strptime_fields (v : string) (dt : datetime) :
  strptime v = Ok dt ->
  exists sY sm sd sH sM,
    Py.field re_Y sY = Some (year dt) /\ Py.field re_m sm = Some (month dt)
    /\ Py.field re_d sd = Some (day dt) /\ Py.field re_H sH = Some (hour dt)
    /\ Py.field re_M sM = Some (minute dt)
    /\ (1 <= year dt)%Z /\ (day dt <= days_in_month (year dt) (month dt))%Z.
Proof.
  unfold strptime.
  destruct (cut (Ascii.eqb "-") v) as [[sY s1]|]; simpl; [| discriminate].
  destruct (cut (Ascii.eqb "-") s1) as [[sm s2]|]; simpl; [| discriminate].
  destruct (cut _ s2) as [[sd s3]|]; simpl; [| discriminate].
  destruct (cut (Ascii.eqb ":") s3) as [[sH sM]|]; simpl; [| discriminate].
  destruct (Py.field re_Y sY) as [y|] eqn:EY; simpl; [| discriminate].
  destruct (Py.field re_m sm) as [m|] eqn:Em; simpl; [| discriminate].
  destruct (Py.field re_d sd) as [d|] eqn:Ed; simpl; [| discriminate].
  destruct (Py.field re_H sH) as [H|] eqn:EH; simpl; [| discriminate].
  destruct (Py.field re_M sM) as [M|] eqn:EM; simpl; [| discriminate].
  destruct (y <? 1)%Z eqn:Hy; [discriminate |].
  destruct (days_in_month y m <? d)%Z eqn:Hd; [discriminate |].
  intros [= <-]. simpl. exists sY, sm, sd, sH, sM.
  repeat (split; [assumption |]). split; lia.
Qed.

(** [strptime] only returns timestamps that exist. *)
Lemma strptime_valid (v : string) (dt : datetime) :
  strptime v = Ok dt ->
  (1 <= year dt <= 9999)%Z /\ (1 <= month dt <= 12)%Z
  /\ (1 <= day dt <= days_in_month (year dt) (month dt))%Z
  /\ (0 <= hour dt <= 23)%Z /\ (0 <= minute dt <= 59)%Z.
Proof.
  intros H. apply strptime_fields in H
    as (sY & sm & sd & sH & sM & HY & Hm & Hd & HH & HM & Hy1 & Hdm).
  assert (field_within re_Y (between 0 9999) = true) as BY by (vm_compute; reflexivity).
  assert (field_within re_m (between 1 12) = true) as Bm by (vm_compute; reflexivity).
  assert (field_within re_d (between 1 31) = true) as Bd by (vm_compute; reflexivity).
  assert (field_within re_H (between 0 23) = true) as BH by (vm_compute; reflexivity).
  assert (field_within re_M (between 0 59) = true) as BM by (vm_compute; reflexivity).
  pose proof (field_bound _ _ _ _ BY HY) as PY.
  pose proof (field_bound _ _ _ _ Bm Hm) as Pm.
  pose proof (field_bound _ _ _ _ Bd Hd) as Pd.
  pose proof (field_bound _ _ _ _ BH HH) as PH.
  pose proof (field_bound _ _ _ _ BM HM) as PM.
  unfold between in *. lia.
Qed.

Lemma lookup_if_insert_ne (b : bool) (k j : string) (v : value)
    (m : gmap string value) :
  k <> j -> (if b then <[k := v]> m else m) !! j = m !! j.
Proof. intros Hne. destruct b; [apply lookup_insert_ne, Hne | reflexivity]. Qed.

Lemma lookup_if_insert_eq (b : bool) (k : string) (v : value)
    (m : gmap string value) :
  (if b then <[k := v]> m else m) !! k = if b then Some v else m !! k.
Proof. destruct b; [apply lookup_insert_eq | reflexivity]. Qed.

Lemma dom_if_insert (b : bool) (k : string) (v : value) (m : gmap string value) :
  dom (if b then <[k := v]> m else m) = (if b then {[k]} else ∅) ∪ dom m.
Proof.
  destruct b; [apply dom_insert_L |]. symmetry. apply (left_id_L ∅ (∪)).
Qed.

Ltac keys :=
  unfold record, point_fields, distance_fields, area_fields;
  repeat first
    [ rewrite lookup_delete_ne by discriminate
    | rewrite lookup_insert_ne by discriminate
    | rewrite lookup_insert_eq
    | rewrite lookup_singleton_eq
    | rewrite lookup_singleton_ne by discriminate ];
  try reflexivity.

Ltac doms :=
  unfold declared, point_fields, distance_fields, area_fields;
  repeat first
    [ rewrite dom_delete_L | rewrite dom_insert_L | rewrite dom_singleton_L ];
  set_solver.

Section records.
Variables (time duration distance : option string)
          (area : option pyfloat * option string)
          (party_size : string) (observers : list string).

Lemma dom_point_fields :
  dom (point_fields time duration party_size observers) = declared Point.
Proof. doms. Qed.

Lemma dom_distance_fields :
  dom (distance_fields time duration distance party_size observers)
  = declared Distance.
Proof. doms. Qed.

Lemma dom_area_fields :
  dom (area_fields time area duration party_size observers)
  = declared (AreaShape true).
Proof. doms. Qed.

Lemma dom_area_fields_deleted :
  dom (delete "area" (area_fields time area duration party_size observers))
  = declared (AreaShape false).
Proof. doms. Qed.

Lemma dom_incidental_fields :
  dom (incidental_fields time observers)
  = (if truthy (of_str time) then {["time"]} else ∅) ∪ {["observers"]}.
Proof.
  unfold incidental_fields. rewrite dom_if_insert, dom_singleton_L. reflexivity.
Qed.

Lemma dom_historical_fields :
  dom (historical_fields time duration distance area party_size observers)
  = (if nonempty party_size then {["party_size"]} else ∅)
    ∪ ((if negb (eq_none_pair (VPair (of_float area.1) (of_str area.2)))
        then {["area"]} else ∅)
       ∪ ({["distance"]}
          ∪ ((if truthy (of_str duration) then {["duration"]} else ∅)
             ∪ ((if truthy (of_str time) then {["time"]} else ∅)
                ∪ {["observers"]})))).
Proof.
  unfold historical_fields. cbv zeta.
  rewrite distance_never_none_pair. cbn [negb truthy].
  rewrite !dom_if_insert, dom_insert_L, !dom_if_insert, dom_singleton_L.
  reflexivity.
Qed.

Lemma record_distance :
  distance_fields time duration distance party_size observers !! "distance"
  = Some (of_str distance).
Proof. keys. Qed.

Lemma record_name (s : shape) :
  record s time duration distance area party_size observers !! "name" = None.
Proof.
  destruct s as [| | | |[|]]; try (keys; fail).
  - unfold record, incidental_fields.
    rewrite lookup_if_insert_ne by discriminate.
    apply lookup_singleton_ne. discriminate.
  - unfold record, historical_fields. cbv zeta.
    rewrite !lookup_if_insert_ne by discriminate.
    apply lookup_singleton_ne. discriminate.
Qed.

Lemma record_time (s : shape) :
  truthy (of_str time) = true ->
  record s time duration distance area party_size observers !! "time"
  = Some (of_str time).
Proof.
  intros Ht. destruct s as [| | | |[|]]; try (keys; fail).
  - unfold record, incidental_fields. rewrite Ht. apply lookup_insert_eq.
  - unfold record, historical_fields. cbv zeta.
    rewrite !lookup_if_insert_ne by discriminate.
    rewrite Ht. apply lookup_insert_eq.
Qed.

Lemma record_observers (s : shape) :
  record s time duration distance area party_size observers !! "observers"
  = Some (VList observers).
Proof.
  destruct s as [| | | |[|]]; try (keys; fail).
  - unfold record, incidental_fields.
    rewrite lookup_if_insert_ne by discriminate.
    apply lookup_singleton_eq.
  - unfold record, historical_fields. cbv zeta.
    rewrite !lookup_if_insert_ne by discriminate.
    apply lookup_singleton_eq.
Qed.

Lemma historical_distance :
  historical_fields time duration distance area party_size observers
    !! "distance" = Some (of_str distance).
Proof.
  unfold historical_fields. cbv zeta.
  rewrite !lookup_if_insert_ne by discriminate.
  rewrite distance_never_none_pair. apply lookup_insert_eq.
Qed.
End records.

(** ** The area pair *)

Lemma scrape_area_pair (node : tag) (a : option pyfloat) (u : option string) :
  _scrape_area node = Ok (a, u) ->
  (a = None /\ u = None)
  \/ exists f k, a = Some f /\ u = Some k /\ (k = "ha" \/ k = "acre").
Proof.
  unfold _scrape_area.
  destruct (find "dt" [] (Some (Pattern area_label)) node) as [dt|];
    [| intros [= <- <-]; left; auto].
  unfold mbind, result_bind, getattr.
  destruct (parent dt) as [row|]; [| discriminate].
  destruct (find "dd" [] None row) as [dd|]; [| discriminate].
  destruct (index (split_ws (lower (text dd))) 0) as [v0|]; [| discriminate].
  destruct (float v0) as [f|]; [| discriminate].
  destruct (index (split_ws (lower (text dd))) 1) as [v1|]; [| discriminate].
  unfold getitem.
  destruct (_scrape_area_units !! v1) as [k|] eqn:Hk; [| discriminate].
  intros [= <- <-]. right. exists f, k. split; [reflexivity |].
  split; [reflexivity |].
  apply area_units_table in Hk.
  repeat (apply elem_of_cons in Hk as [[= _ ->] | Hk]; [auto |]).
  apply elem_of_nil in Hk. destruct Hk.
Qed.

(** ** What a returned record was built from *)

Ltac next_extractor e x E :=
  destruct e as [x|] eqn:E; cbv beta iota; [| discriminate].

Lemma policy_record (s : shape) (node : tag) (r : gmap string value) :
  policy_of s node = Ok r ->
  exists time duration distance area party_size observers,
    _scrape_time node = Ok time
    /\ _scrape_observers node = Ok observers
    /\ extracted s node time duration distance area party_size
    /\ r = record s time duration distance area party_size observers.
Proof.
  destruct s as [| | | |include_area]; unfold policy_of; intros H.
  - assert (exists t d p o, _scrape_time node = Ok t
              /\ _scrape_duration node = Ok d
              /\ _scrape_party_size node = Ok p
              /\ _scrape_observers node = Ok o) as (t & d & p & o & Et & Ed & Ep & Eo).
    { revert H. unfold _point_protocol, mbind, result_bind.
      next_extractor (_scrape_time node) t Et.
      next_extractor (_scrape_duration node) d Ed.
      next_extractor (_scrape_party_size node) p Ep.
      next_extractor (_scrape_observers node) o Eo.
      intros _. exists t, d, p, o. auto. }
    rewrite (point_protocol_run node t d p o Et Ed Ep Eo) in H.
    destruct (truthy (of_str t)) eqn:Tt; [| discriminate H].
    destruct (truthy (of_str d)) eqn:Td; [| discriminate H].
    destruct (nonempty p) eqn:Tp; [| discriminate H].
    injection H as <-. exists t, d, None, (None, None), p, o.
    simpl. auto 10.
  - assert (exists t d x p o, _scrape_time node = Ok t
              /\ _scrape_duration node = Ok d
              /\ _scrape_distance node = Ok x
              /\ _scrape_party_size node = Ok p
              /\ _scrape_observers node = Ok o)
      as (t & d & x & p & o & Et & Ed & Ex & Ep & Eo).
    { revert H. unfold _distance_protocol, mbind, result_bind.
      next_extractor (_scrape_time node) t Et.
      next_extractor (_scrape_duration node) d Ed.
      next_extractor (_scrape_distance node) x Ex.
      next_extractor (_scrape_party_size node) p Ep.
      next_extractor (_scrape_observers node) o Eo.
      intros _. exists t, d, x, p, o. auto 10. }
    rewrite (distance_protocol_run node t d x p o Et Ed Ex Ep Eo) in H.
    destruct (truthy (of_str t)) eqn:Tt; [| discriminate H].
    destruct (is_none (of_str d)) eqn:Td; [discriminate H |].
    destruct (nonempty p) eqn:Tp; [| discriminate H].
    injection H as <-. exists t, d, x, (None, None), p, o.
    simpl. auto 10.
  - revert H. unfold _incidental_observations, mbind, result_bind.
    next_extractor (_scrape_observers node) o Eo.
    next_extractor (_scrape_time node) t Et.
    intros [= <-]. exists t, None, None, (None, None), EmptyString, o.
    simpl. auto.
  - revert H. unfold _historical_observations, mbind, result_bind.
    next_extractor (_scrape_observers node) o Eo.
    next_extractor (_scrape_time node) t Et.
    next_extractor (_scrape_duration node) d Ed.
    next_extractor (_scrape_distance node) x Ex.
    next_extractor (_scrape_area node) a Ea.
    next_extractor (_scrape_party_size node) p Ep.
    intros [= <-]. exists t, d, x, a, p, o. simpl. auto 10.
  - destruct (area_protocol_returns _ _ _ H)
      as (t & a & d & p & o & Et & Ea & Ed & Ep & Eo).
    rewrite (area_protocol_run include_area node t a d p o Et Ea Ed Ep Eo) in H.
    destruct (truthy (of_str t)) eqn:Tt; [| discriminate H].
    cbn [negb] in H.
    destruct (include_area
              && eq_none_pair (VPair (of_float a.1) (of_str a.2))) eqn:Ta;
      [discriminate H |].
    destruct (is_none (of_str d)) eqn:Td; [discriminate H |].
    destruct (nonempty p) eqn:Tp; [| discriminate H].
    injection H as <-. exists t, d, None, a, p, o.
    split; [assumption |]. split; [assumption |]. split.
    + simpl. repeat (split; [assumption || reflexivity |]).
      split; [| auto]. intros ->. exact Ta.
    + destruct include_area; reflexivity.
Qed.

Lemma truthy_of_str (o : option string) :
  truthy (of_str o) = true -> exists c s, o = Some (String c s).
Proof. destruct o as [[|c s]|]; try discriminate. eauto. Qed.

Lemma not_none_of_str (o : option string) :
  is_none (of_str o) = false -> exists s, o = Some s.
Proof. destruct o as [s|]; [eauto | discriminate]. Qed.

Lemma nonempty_neq (s : string) : nonempty s = true -> s <> EmptyString.
Proof. destruct s; [discriminate | discriminate]. Qed.

Ltac show_present :=
  simpl;
  first [ eexists; eassumption
        | eexists; eexists; eassumption
        | eexists; split; [eassumption | first [assumption | discriminate]] ].

(** X9: when a point, distance or area policy returns, its record has
    exactly the keys the policy declares, and the time, the duration and the
    party size were present on the page, as was the area under the policy
    that keeps it. The distance is not among them: the distance policy
    stores what the distance extractor returned, [None] included. *)
Theorem validating_record (s : shape) (node : tag) (r : gmap string value) :
  s <> Incidental -> s <> Historical ->
  policy_of s node = Ok r ->
  dom r = declared s
  /\ present s Time node /\ present s Duration node
  /\ present s PartySize node
  /\ (s = AreaShape true -> present s Area node)
  /\ (s = Distance ->
      exists distance, _scrape_distance node = Ok distance
                       /\ r !! "distance" = Some (of_str distance)).
Proof.
  intros Hi Hh H.
  destruct (policy_record s node r H)
    as (t & d & x & a & p & o & Et & Eo & Hx & ->).
  destruct s as [| | | |[|]]; simpl in Hx; try congruence.
  - destruct Hx as (Ed & Ep & Tt & Td & Tp).
    split; [apply dom_point_fields |].
    apply truthy_of_str in Tt as (c1 & t' & ->).
    apply truthy_of_str in Td as (c2 & d' & ->).
    apply nonempty_neq in Tp.
    repeat split; try discriminate; show_present.
  - destruct Hx as (Ed & Ex & Ep & Tt & Td & Tp).
    split; [apply dom_distance_fields |].
    apply truthy_of_str in Tt as (c1 & t' & ->).
    apply not_none_of_str in Td as (d' & ->).
    apply nonempty_neq in Tp.
    split; [show_present |]. split; [show_present |].
    split; [show_present |]. split; [discriminate |].
    intros _. exists x. split; [exact Ex | apply record_distance].
  - destruct Hx as (Ea & Ed & Ep & Tt & Ta & Td & Tp).
    split; [apply dom_area_fields |].
    apply truthy_of_str in Tt as (c1 & t' & ->).
    apply not_none_of_str in Td as (d' & ->).
    apply nonempty_neq in Tp. specialize (Ta eq_refl).
    destruct a as [a u].
    destruct (scrape_area_pair _ _ _ Ea) as [[-> ->] | (f' & k & -> & -> & _)];
      [discriminate Ta |].
    split; [show_present |]. split; [show_present |].
    split; [show_present |]. split; [intros _; show_present | discriminate].
  - destruct Hx as (Ea & Ed & Ep & Tt & _ & Td & Tp).
    split; [apply dom_area_fields_deleted |].
    apply truthy_of_str in Tt as (c1 & t' & ->).
    apply not_none_of_str in Td as (d' & ->).
    apply nonempty_neq in Tp.
    repeat split; try discriminate; show_present.
Qed.

Ltac historical_keys :=
  unfold historical_fields; cbv zeta;
  rewrite ?distance_never_none_pair; cbn [negb];
  repeat first
    [ rewrite lookup_if_insert_ne by discriminate
    | rewrite lookup_if_insert_eq
    | rewrite lookup_insert_ne by discriminate
    | rewrite lookup_insert_eq
    | rewrite lookup_singleton_ne by discriminate
    | rewrite lookup_singleton_eq ];
  try reflexivity.

(** X8: the record of the Historical policy. *)
Theorem historical_record (node : tag) (r : gmap string value) :
  _historical_observations node = Ok r ->
  exists time duration distance area party_size observers,
    _scrape_time node = Ok time
    /\ _scrape_duration node = Ok duration
    /\ _scrape_distance node = Ok distance
    /\ _scrape_area node = Ok area
    /\ _scrape_party_size node = Ok party_size
    /\ _scrape_observers node = Ok observers
    /\ r !! "observers" = Some (VList observers)
    /\ r !! "distance" = Some (of_str distance)
    /\ r !! "time" = (if truthy (of_str time) then Some (of_str time) else None)
    /\ r !! "duration"
       = (if truthy (of_str duration) then Some (of_str duration) else None)
    /\ r !! "area"
       = (match area with
          | (None, None) => None
          | (a, u) => Some (VPair (of_float a) (of_str u))
          end)
    /\ r !! "party_size"
       = (if nonempty party_size then Some (VStr party_size) else None)
    /\ dom r ⊆ declared Historical.
Proof.
  intros H.
  destruct (policy_record Historical node r H)
    as (t & d & x & a & p & o & Et & Eo & (Ed & Ex & Ea & Ep) & ->).
  exists t, d, x, a, p, o. repeat (split; [assumption |]).
  unfold record.
  split; [historical_keys |]. split; [historical_keys |].
  split; [historical_keys |]. split; [historical_keys |].
  split; [| split; [historical_keys |]].
  - historical_keys. destruct a as [[f|] [u|]]; reflexivity.
  - rewrite dom_historical_fields. unfold declared.
    destruct (nonempty p), (truthy (of_str d)), (truthy (of_str t)),
      (negb (eq_none_pair (VPair (of_float a.1) (of_str a.2)))); set_solver.
Qed.

(** X16: the record of the Incidental policy. *)
Theorem incidental_record (node : tag) (r : gmap string value) :
  _incidental_observations node = Ok r ->
  exists observers,
    _scrape_observers node = Ok observers
    /\ ((_scrape_time node = Ok None
         /\ r = {[ "observers" := VList observers ]})
        \/ (exists t, _scrape_time node = Ok (Some t)
                      /\ r = {[ "time" := VStr t;
                                "observers" := VList observers ]})).
Proof.
  intros H.
  destruct (policy_record Incidental node r H)
    as (t & d & x & a & p & o & Et & Eo & _ & ->).
  exists o. split; [assumption |]. unfold record, incidental_fields.
  destruct t as [t|]; [right | left; auto].
  pose proof (scrape_time_nonempty _ _ Et) as Hne.
  destruct t; [congruence |]. eauto.
Qed.

Lemma scrape_protocol_returns (node : tag) (r : gmap string value) :
  _scrape_protocol node = Ok r ->
  exists name s fields,
    _scrape_protocol_name node = Ok name
    /\ (name, s) ∈ _protocols_shapes
    /\ policy_of s node = Ok fields
    /\ r = update fields {[ "name" := VStr name ]}.
Proof.
  unfold _scrape_protocol, mbind, result_bind, getitem.
  destruct (_scrape_protocol_name node) as [name|]; [| discriminate].
  destruct (_protocols !! name) as [p|] eqn:Hp; [| discriminate].
  destruct (protocols_shape_complete _ _ Hp) as (s & Hin & ->).
  destruct (policy_of s node) as [fields|] eqn:Hf; [| discriminate].
  intros [= <-]. exists name, s, fields. auto.
Qed.

(** X10: the record [_scrape_protocol] returns carries, under [name], the
    heading read from the page, which is a key of the registry; no policy
    overwrites it. *)
Theorem protocol_record_name (node : tag) (r : gmap string value) :
  _scrape_protocol node = Ok r ->
  exists name,
    _scrape_protocol_name node = Ok name
    /\ is_Some (_protocols !! name)
    /\ r !! "name" = Some (VStr name).
Proof.
  intros H. apply scrape_protocol_returns in H
    as (name & s & fields & Hname & Hin & Hf & ->).
  exists name. split; [assumption |].
  split; [rewrite (protocols_shape_lookup _ _ Hin); eauto |].
  destruct (policy_record s node fields Hf)
    as (t & d & x & a & p & o & _ & _ & _ & ->).
  unfold update. rewrite lookup_union_r by apply record_name.
  apply lookup_singleton_eq.
Qed.

Lemma scrape_date_value (node : tag) (dt : datetime) :
  _scrape_date node = Ok dt ->
  exists t v, find "time" [] None node = Some t
              /\ attrs t !! "datetime" = Some v /\ strptime v = Ok dt.
Proof.
  unfold _scrape_date, mbind, result_bind, subscript, getitem.
  destruct (find "time" [] None node) as [t|]; [| discriminate].
  destruct (attrs t !! "datetime") as [v|] eqn:Hv; [| discriminate].
  intros H. exists t, v. split; [reflexivity |]. split; [exact Hv | exact H].
Qed.

(** X1: the date extractor only returns timestamps that exist. *)
Theorem scrape_date_valid (node : tag) (dt : datetime) :
  _scrape_date node = Ok dt ->
  (1 <= year dt <= 9999)%Z /\ (1 <= month dt <= 12)%Z
  /\ (1 <= day dt <= days_in_month (year dt) (month dt))%Z
  /\ (0 <= hour dt <= 23)%Z /\ (0 <= minute dt <= 59)%Z.
Proof.
  intros H. apply scrape_date_value in H as (t & v & _ & _ & H).
  apply (strptime_valid v dt H).
Qed.

(** X2: what the time extractor returns, when it is not [None], reads
    [hh:mm AM] or [hh:mm PM]. *)
Theorem scrape_time_clock (node : tag) (s : string) :
  _scrape_time node = Ok (Some s) -> fullmatch re_clock s = true.
Proof.
  unfold _scrape_time, mbind, mret, result_bind, result_ret, getattr, getitem.
  destruct (find "time" [] None node) as [t|]; [| discriminate].
  destruct (attrs t !! "datetime") as [v|]; [| discriminate].
  destruct (nonempty v); [| discriminate].
  destruct (strptime v) as [dt|] eqn:Hdt; [| discriminate].
  intros [= <-]. apply strptime_valid in Hdt.
  apply strftime_clock; lia.
Qed.

(** ** Queries *)

Lemma find_all_matches (nm : string) (filters : list (string * matcher))
    (str : option matcher) (t x : tag) :
  In x (find_all nm filters str t) -> matches_tag nm filters str x = true.
Proof. unfold find_all. intros H. apply filter_In in H as [_ H]. exact H. Qed.

Lemma find_head (nm : string) (filters : list (string * matcher))
    (str : option matcher) (t x : tag) :
  find nm filters str t = Some x ->
  exists rest, find_all nm filters str t = x :: rest.
Proof.
  unfold find. destruct (find_all nm filters str t) as [|y rest]; [discriminate |].
  intros [= ->]. eauto.
Qed.

Lemma find_matches (nm : string) (filters : list (string * matcher))
    (str : option matcher) (t x : tag) :
  find nm filters str t = Some x -> matches_tag nm filters str x = true.
Proof.
  intros H. apply find_head in H as (rest & H).
  apply (find_all_matches nm filters str t). rewrite H. left. reflexivity.
Qed.



(** ** Observers *)




Lemma other_name_text (s : string) : other_name (inl s) = None.
Proof. reflexivity. Qed.


(** ** Entries *)

Lemma for_each_ok {A B} (f : A -> result B) (l : list A) (ys : list B) :
  for_each f l = Ok ys <-> Forall2 (fun x y => f x = Ok y) l ys.
Proof.
  revert ys. induction l as [|x l IH]; intros ys; simpl.
  - split.
    + intros [= <-]. constructor.
    + intros H. apply Forall2_nil_inv_l in H as ->. reflexivity.
  - unfold mbind, mret, result_bind, result_ret. split.
    + destruct (f x) as [y|] eqn:Hy; [| discriminate].
      destruct (for_each f l) as [ys'|]; [| discriminate].
      intros [= <-]. constructor; [exact Hy | apply IH; reflexivity].
    + intros H. apply Forall2_cons_inv_l in H as (y & ys' & Hy & H & ->).
      rewrite Hy. apply IH in H. rewrite H. reflexivity.
Qed.

Lemma for_each_raise {A B} (f : A -> result B) (l : list A) (x : A) (e : exn) :
  In x l -> f x = Raise e -> exists e', for_each f l = Raise e'.
Proof.
  induction l as [|y l IH]; simpl; [intros [] |].
  unfold mbind, result_bind. intros [-> | Hin] Hx.
  - rewrite Hx. eauto.
  - destruct (f y); [| eauto].
    destruct (IH Hin Hx) as (e' & ->). eauto.
Qed.

Lemma observation_item_selected (t : tag) :
  matches_tag "li" [("data-observation", Exact "")] None t
  = is_observation_item t.
Proof.
  unfold matches_tag, is_observation_item, matches_attr, matches.
  cbn [forallb fst snd]. rewrite !andb_true_r.
  change (String.eqb "data-observation" "class") with false. cbv iota.
  destruct (attrs t !! "data-observation"); reflexivity.
Qed.

(** X6: without the list container there are no entries. With it, the items
    read are the [li] elements below the container that carry
    [data-observation] with the empty value, in document order (an [li]
    without the attribute, or with another value, is passed over); the
    entries returned are the entries of those items, one for one and in that
    order; an item that cannot be read makes the whole extraction fail. *)
Theorem scrape_entries_in_order (node : tag) :
  (find "div" [("id", Exact "list")] None node = None ->
   _scrape_entries node = Ok [])
  /\ (forall box, find "div" [("id", Exact "list")] None node = Some box ->
      observation_items box = List.filter is_observation_item (descendants box)
      /\ (forall es, _scrape_entries node = Ok es <->
                     Forall2 (fun item e => _scrape_entry item = Ok e)
                       (List.filter is_observation_item (descendants box)) es)
      /\ (forall item e,
            In item (descendants box) -> is_observation_item item = true ->
            _scrape_entry item = Raise e ->
            exists e', _scrape_entries node = Raise e')).
Proof.
  assert (forall box, observation_items box
                      = List.filter is_observation_item (descendants box))
    as Hitems.
  { intros box. unfold find_all. apply filter_ext.
    intros t. apply observation_item_selected. }
  unfold _scrape_entries. split.
  - intros ->. reflexivity.
  - intros box ->. split; [apply Hitems |]. rewrite Hitems. split.
    + intros es. apply for_each_ok.
    + intros item e Hin Hitem. apply for_each_raise.
      apply filter_In. split; assumption.
Qed.

(** ** The checklist *)

(** X4: [_scrape_checklist] returns exactly when its six extractors return,
    with their results for fields and no comment; otherwise it raises the
    failure of the first extractor, in calling order, that failed. *)
Theorem scrape_checklist_composition (soup : tag) :
  (forall c, _scrape_checklist soup = Ok c <->
     _scrape_identifier soup = Ok (identifier c)
     /\ _scrape_date soup = Ok (date c)
     /\ _scrape_protocol soup = Ok (protocol c)
     /\ _scrape_location soup = Ok (location c)
     /\ _scrape_entries soup = Ok (entries c)
     /\ comment c = None
     /\ _scrape_complete soup = Ok (complete c))
  /\ (forall e, _scrape_checklist soup = Raise e <->
        head (omap id (failures soup)) = Some e).
Proof.
  unfold _scrape_checklist, failures, mbind, mret, result_bind, result_ret.
  destruct (_scrape_identifier soup) as [i|e1];
    [| split; [intros c; split; [discriminate | intros (H & _); discriminate H]
              | intros e; simpl; split; congruence]].
  destruct (_scrape_date soup) as [d|e2];
    [| split; [intros c; split; [discriminate | intros (_ & H & _); discriminate H]
              | intros e; simpl; split; congruence]].
  destruct (_scrape_protocol soup) as [p|e3];
    [| split; [intros c; split; [discriminate | intros (_ & _ & H & _); discriminate H]
              | intros e; simpl; split; congruence]].
  destruct (_scrape_location soup) as [l|e4];
    [| split; [intros c; split; [discriminate | intros (_ & _ & _ & H & _); discriminate H]
              | intros e; simpl; split; congruence]].
  destruct (_scrape_entries soup) as [es|e5];
    [| split; [intros c; split; [discriminate | intros (_ & _ & _ & _ & H & _); discriminate H]
              | intros e; simpl; split; congruence]].
  destruct (_scrape_complete soup) as [b|e6];
    [| split; [intros c; split; [discriminate | intros (_ & _ & _ & _ & _ & _ & H); discriminate H]
              | intros e; simpl; split; congruence]].
  split.
  - intros c. split.
    + intros [= <-]. simpl. auto 10.
    + destruct c as [i' d' p' l' es' c' b']. simpl.
      intros ([= ->] & [= ->] & [= ->] & [= ->] & [= ->] & -> & [= ->]).
      reflexivity.
  - intros e. simpl. split; discriminate.
Qed.

Lemma scrape_time_of_date (node : tag) (dt : datetime) :
  _scrape_date node = Ok dt -> _scrape_time node = Ok (Some (strftime dt)).
Proof.
  intros H. apply scrape_date_value in H as (t & v & Hfind & Hattr & Hparse).
  unfold _scrape_time, mbind, mret, result_bind, result_ret, getattr, getitem.
  rewrite Hfind, Hattr, (strptime_nonempty v dt Hparse), Hparse. reflexivity.
Qed.

Lemma scrape_checklist_parts (soup : tag) (c : Checklist) :
  _scrape_checklist soup = Ok c ->
  _scrape_date soup = Ok (date c) /\ _scrape_protocol soup = Ok (protocol c).
Proof.
  unfold _scrape_checklist, mbind, mret, result_bind, result_ret.
  destruct (_scrape_identifier soup) as [i|]; [| discriminate].
  destruct (_scrape_date soup) as [d|]; [| discriminate].
  destruct (_scrape_protocol soup) as [p|]; [| discriminate].
  destruct (_scrape_location soup) as [l|]; [| discriminate].
  destruct (_scrape_entries soup) as [es|]; [| discriminate].
  destruct (_scrape_complete soup) as [b|]; [| discriminate].
  intros [= <-]. split; reflexivity.
Qed.

(** X3: in a checklist that is returned the protocol record always has a
    [time], whatever the protocol: it is the clock reading of the date of
    the checklist. The policies' test for a missing time cannot fire there,
    the date having been parsed from the same attribute first. *)
Theorem checklist_time_is_date (soup : tag) (c : Checklist) :
  _scrape_checklist soup = Ok c ->
  protocol c !! "time" = Some (VStr (strftime (date c))).
Proof.
  intros H. apply scrape_checklist_parts in H as (Hd & Hp).
  apply scrape_time_of_date in Hd.
  apply scrape_protocol_returns in Hp
    as (name & s & fields & _ & _ & Hf & ->).
  destruct (policy_record s soup fields Hf)
    as (t & d & x & a & p & o & Et & _ & _ & ->).
  rewrite Hd in Et. injection Et as <-.
  pose proof (scrape_time_nonempty _ _ Hd) as Hne.
  unfold update. apply lookup_union_Some_l.
  apply (record_time (Some (strftime (date c))) d x a p o s).
  simpl. destruct (strftime (date c)); [congruence | reflexivity].
Qed.

(** ** Splitting *)

Lemma of_rev_cons (c : ascii) (cur : list ascii) :
  of_rev (c :: cur) = (of_rev cur ++ String c EmptyString)%string.
Proof.
  unfold of_rev. simpl. generalize (rev cur). intros l.
  induction l as [|x l IH]; simpl; [reflexivity |].
  rewrite IH. reflexivity.
Qed.

Lemma has_char_append (c : ascii) (a b : string) :
  has_char c (a ++ b)%string = has_char c a || has_char c b.
Proof.
  induction a as [|x a IH]; [reflexivity |].
  rewrite append_String. simpl. rewrite IH. apply orb_assoc.
Qed.

(** The first piece of a split runs up to the first separator; the other
    pieces are the split of what follows it. *)
Lemma split_aux_first (sep : ascii) (s : string) (cur : list ascii)
    (x : string) (l : list string) :
  split_aux sep cur s = x :: l ->
  exists s1, x = (of_rev cur ++ s1)%string /\ has_char sep s1 = false
             /\ ((l = [] /\ s = s1)
                 \/ exists s', s = (s1 ++ String sep s')%string
                               /\ split_aux sep [] s' = l).
Proof.
  revert cur. induction s as [|c s IH]; intros cur; simpl.
  - intros [= <- <-]. exists EmptyString.
    rewrite append_nil_r. auto.
  - destruct (Ascii.eqb_spec c sep) as [->|Hne].
    + intros [= <- <-]. exists EmptyString. rewrite append_nil_r.
      split; [reflexivity |]. split; [reflexivity |]. right. exists s. auto.
    + intros H. apply IH in H as (s1 & -> & Hs1 & H).
      exists (String c s1). rewrite of_rev_cons, append_assoc.
      split; [reflexivity |]. split.
      * simpl. rewrite Hs1. apply Ascii.eqb_neq in Hne. rewrite Hne. reflexivity.
      * destruct H as [[-> ->] | (s' & -> & H)]; [left; auto |].
        right. exists s'. auto.
Qed.

Lemma split_first (sep : ascii) (s x : string) (l : list string) :
  split sep s = x :: l ->
  has_char sep x = false
  /\ ((l = [] /\ s = x)
      \/ exists s', s = (x ++ String sep s')%string /\ split sep s' = l).
Proof.
  intros H. apply split_aux_first in H as (s1 & -> & Hs1 & H).
  change (of_rev []) with EmptyString. rewrite append_nil_l. auto.
Qed.

(** ** Location *)

Lemma index_ok {A} (l : list A) (i : nat) (x : A) :
  index l i = Ok x <-> l !! i = Some x.
Proof.
  unfold index. destruct (l !! i); split; congruence.
Qed.

Lemma location_fields_returns (node : tag) (l : Location) :
  location_fields node = Ok l ->
  exists c,
    _scrape_coords node = Ok c
    /\ _scrape_site node = Ok (loc_name l)
    /\ _scrape_location_identifier node = Ok (loc_identifier l)
    /\ _scrape_subnational2 node = Ok (loc_subnational2 l)
    /\ _scrape_subnational2_code node = Ok (loc_subnational2_code l)
    /\ _scrape_subnational1 node = Ok (loc_subnational1 l)
    /\ _scrape_subnational1_code node = Ok (loc_subnational1_code l)
    /\ _scrape_country node = Ok (loc_country l)
    /\ _scrape_country_code node = Ok (loc_country_code l)
    /\ index (split "," c) 0 = Ok (loc_lat l)
    /\ index (split "," c) 1 = Ok (loc_lon l).
Proof.
  unfold location_fields, mbind, mret, result_bind, result_ret.
  destruct (_scrape_coords node) as [c|]; [| discriminate].
  destruct (_scrape_site node) as [x1|]; [| discriminate].
  destruct (_scrape_location_identifier node) as [x2|]; [| discriminate].
  destruct (_scrape_subnational2 node) as [x3|]; [| discriminate].
  destruct (_scrape_subnational2_code node) as [x4|]; [| discriminate].
  destruct (_scrape_subnational1 node) as [x5|]; [| discriminate].
  destruct (_scrape_subnational1_code node) as [x6|]; [| discriminate].
  destruct (_scrape_country node) as [x7|]; [| discriminate].
  destruct (_scrape_country_code node) as [x8|]; [| discriminate].
  destruct (index (split "," c) 0) as [x9|] eqn:E0; [| discriminate].
  destruct (index (split "," c) 1) as [x10|] eqn:E1; [| discriminate].
  intros [= <-]. exists c. simpl.
  repeat (split; [reflexivity || assumption |]). assumption.
Qed.

(** X11: a location is returned only from a page with at least three
    sections, a hotspot link and at least three region links; the site name
    and identifier come from the hotspot link, the three levels from the
    first three region links in page order. *)
Theorem location_structure (node : tag) (l : Location) :
  _scrape_location node = Ok l ->
  3 <= length (find_all "section" [] None node)
  /\ exists h r0 r1 r2 rest,
       hotspot_links node = Some h
       /\ region_links node = r0 :: r1 :: r2 :: rest
       /\ span_text h = Ok (loc_name l)
       /\ href_part h = Ok (loc_identifier l)
       /\ loc_subnational2 l = text r0
       /\ href_part r0 = Ok (loc_subnational2_code l)
       /\ span_text r1 = Ok (loc_subnational1 l)
       /\ href_part r1 = Ok (loc_subnational1_code l)
       /\ span_text r2 = Ok (loc_country l)
       /\ href_part r2 = Ok (loc_country_code l).
Proof.
  unfold _scrape_location, mbind, result_bind.
  destruct (index (find_all "section" [] None node) 2) as [sec|] eqn:Hsec;
    [| discriminate].
  apply index_ok, lookup_lt_Some in Hsec. intros H. split; [lia |].
  apply location_fields_returns in H
    as (c & _ & Hsite & Hid & H2 & H2c & H1 & H1c & H0 & H0c & _).
  unfold _scrape_site, _scrape_location_identifier, mbind, result_bind, getattr
    in Hsite, Hid.
  destruct (hotspot_links node) as [h|]; [| discriminate Hsite].
  unfold _scrape_subnational2, _scrape_subnational2_code, _scrape_subnational1,
    _scrape_subnational1_code, _scrape_country, _scrape_country_code,
    region_link, find, mbind, result_bind, getattr in H2, H2c, H1, H1c, H0, H0c.
  fold (region_links node) in H2, H2c.
  destruct (region_links node) as [|r0 [|r1 [|r2 rest]]];
    try discriminate H2; try discriminate H1; try discriminate H0.
  exists h, r0, r1, r2, rest. simpl in *.
  injection H2 as H2. auto 20.
Qed.

(** X12: the latitude and the longitude of a location are the texts before
    the first comma and between the first and the second comma (or the end)
    of the coordinates. *)
Theorem location_coordinates (node : tag) (l : Location) :
  _scrape_location node = Ok l ->
  exists c tail,
    _scrape_coords node = Ok c
    /\ c = (loc_lat l ++ "," ++ loc_lon l ++ tail)%string
    /\ has_char "," (loc_lat l) = false
    /\ has_char "," (loc_lon l) = false
    /\ (tail = EmptyString \/ exists t, tail = String "," t).
Proof.
  unfold _scrape_location, mbind, result_bind.
  destruct (index (find_all "section" [] None node) 2); [| discriminate].
  intros H. apply location_fields_returns in H as (c & Hc & H).
  do 8 destruct H as (_ & H). destruct H as (Hlat & Hlon).
  apply index_ok in Hlat, Hlon.
  destruct (split "," c) as [|x [|y rest]] eqn:Hsplit; try discriminate.
  injection Hlat as ->. injection Hlon as ->.
  apply split_first in Hsplit as (Nlat & [[E _] | (s' & -> & Hrest)]);
    [discriminate E |].
  apply split_first in Hrest as (Nlon & [[-> ->] | (s'' & -> & _)]).
  - exists (loc_lat l ++ String "," (loc_lon l))%string, EmptyString.
    rewrite append_nil_r. auto 10.
  - exists (loc_lat l ++ String "," (loc_lon l ++ String "," s''))%string,
      (String "," s'').
    repeat (split; [reflexivity || assumption |]). right. eauto.
Qed.

(** ** Counts with a sign *)

Lemma strip_minus_digits (s : string) :
  all_digits s = true -> nonempty s = true ->
  strip (String "-" s) = String "-" s.
Proof.
  intros Hd Hne. unfold strip.
  change (lstrip (String "-" s)) with (String "-" s).
  change (rstrip (String "-" s))
    with (match rstrip s with
          | EmptyString => String "-" EmptyString
          | r => String "-" r
          end).
  rewrite (digits_rstrip _ Hd). destruct s; [discriminate Hne | reflexivity].
Qed.

Lemma literal_strip_minus_digits (s : string) :
  all_digits s = true -> nonempty s = true ->
  literal_strip (String "-" s) = String "-" s.
Proof.
  intros Hd Hne. unfold literal_strip.
  change (literal_lstrip (String "-" s)) with (String "-" s).
  change (literal_rstrip (String "-" s))
    with (match literal_rstrip s with
          | EmptyString => String "-" EmptyString
          | r => String "-" r
          end).
  rewrite (digits_literal_rstrip _ Hd).
  destruct s; [discriminate Hne | reflexivity].
Qed.

(** The sign does not count against the limit on the digits. *)
Lemma int_negative (n : N) :
  within_limit (numeral n) = true ->
  int (String "-" (numeral n)) = Ok (- Z.of_N n)%Z.
Proof.
  intros Hlimit.
  pose proof (numeral_digits n) as Hd. pose proof (numeral_nonempty n) as Hne.
  unfold int. rewrite (literal_strip_minus_digits _ Hd Hne).
  change (take_sign (String "-" (numeral n))) with (true, numeral n).
  cbv beta iota. rewrite (digits_take_digitpart _ Hd).
  rewrite numeral_value.
  destruct (numeral n); [discriminate Hne |].
  cbv beta iota. change (String.prefix "_" EmptyString) with false.
  cbv iota. rewrite Hlimit. reflexivity.
Qed.

(** X14: the count extractor reads a sign: a badge [-n], with the numeral of
    [n] within the 4300 digits [int] converts, gives the negative number;
    there is no test that a count is not below zero. *)
Theorem count_may_be_negative (node box badge : tag) (n : N) :
  find "div" [("class", Exact "Observation-numberObserved")] None node = Some box ->
  last (find_all "span" [] None box) = Some badge ->
  text badge = String "-" (numeral n) ->
  within_limit (numeral n) = true ->
  _scrape_count node = Ok (Some (- Z.of_N n)%Z).
Proof.
  intros Hbox Hlast Htext Hlimit. unfold _scrape_count.
  rewrite Hbox. unfold mbind, mret, result_bind, result_ret, getattr, index_last.
  rewrite Hlast, Htext. cbv beta iota.
  rewrite (strip_minus_digits _ (numeral_digits n) (numeral_nonempty n)).
  change (lower (String "-" (numeral n))) with (String "-" (lower (numeral n))).
  rewrite (digits_lower _ (numeral_digits n)).
  change (String.eqb (String "-" (numeral n)) "x") with false.
  cbv beta iota. rewrite (int_negative _ Hlimit). reflexivity.
Qed.

Lemma count_may_be_negative_witness :
  _scrape_count (observation "-3") = Ok (Some (-3)%Z).
Proof.
  apply (count_may_be_negative (observation "-3") _ _ 3%N eq_refl eq_refl);
    reflexivity.
Defined.

(** ** Labelled badges *)

Lemma titled_span (upper lower : ascii) (rest : string) (node x : tag) :
  find "span" [("title", Pattern (label_pattern upper lower rest))] None node
  = Some x ->
  exists title,
    attrs x !! "title" = Some title
    /\ contains (String upper rest) title || contains (String lower rest) title
       = true.
Proof.
  intros H. apply find_matches in H. unfold matches_tag in H.
  apply andb_prop in H as [H _]. apply andb_prop in H as [_ H].
  simpl in H. rewrite andb_true_r in H. unfold matches_attr in H.
  destruct (attrs x !! "title") as [title|]; [| discriminate H].
  change (String.eqb "title" "class") with false in H. cbv iota in H.
  unfold matches in H. rewrite label_pattern_search in H. eauto.
Qed.

(** X13: the duration and the distance are [None] exactly when no [span] has
    a title containing the label ([Duration] or [duration], [Distance] or
    [distance]: only the first letter may change case); with such a span
    the value is the text of its badge, and the only failure is that of a
    span without badge. *)
Theorem labelled_badges (node : tag) :
  (_scrape_duration node = Ok None <->
   find "span" [("title", Pattern duration_label)] None node = None)
  /\ (_scrape_distance node = Ok None <->
      find "span" [("title", Pattern distance_label)] None node = None)
  /\ (forall x, find "span" [("title", Pattern duration_label)] None node = Some x ->
        (exists title, attrs x !! "title" = Some title
           /\ contains "Duration" title || contains "duration" title = true)
        /\ _scrape_duration node
           = match badge_text x with
             | Ok t => Ok (Some t)
             | Raise _ => Raise (AttributeError "text")
             end)
  /\ (forall x, find "span" [("title", Pattern distance_label)] None node = Some x ->
        (exists title, attrs x !! "title" = Some title
           /\ contains "Distance" title || contains "distance" title = true)
        /\ _scrape_distance node
           = match badge_text x with
             | Ok t => Ok (Some t)
             | Raise _ => Raise (AttributeError "text")
             end).
Proof.
  unfold _scrape_duration, _scrape_distance, badge_text, getattr,
    mbind, mret, result_bind, result_ret.
  split; [| split; [| split]].
  - destruct (find "span" [("title", Pattern duration_label)] None node) as [x|];
      [| split; reflexivity].
    split; [| discriminate].
    destruct (find "span" [("class", Exact "Badge-label")] None x); discriminate.
  - destruct (find "span" [("title", Pattern distance_label)] None node) as [x|];
      [| split; reflexivity].
    split; [| discriminate].
    destruct (find "span" [("class", Exact "Badge-label")] None x); discriminate.
  - intros x Hx. split; [apply (titled_span "D" "d" "uration" node x Hx) |].
    rewrite Hx.
    destruct (find "span" [("class", Exact "Badge-label")] None x); reflexivity.
  - intros x Hx. split; [apply (titled_span "D" "d" "istance" node x Hx) |].
    rewrite Hx.
    destruct (find "span" [("class", Exact "Badge-label")] None x); reflexivity.
Qed.

(** X15: the party size is the text of the tag that follows the first [span]
    whose only string contains [Observers] or [observers]; it is never
    [None]: without that span, or without a tag after it, the extractor
    raises [AttributeError]. *)
Theorem party_size_outcomes (node : tag) :
  (forall p, _scrape_party_size node = Ok p <->
     exists label sibling,
       find "span" [] (Some (Pattern observers_label)) node = Some label
       /\ find_next_sibling label = Some sibling
       /\ p = text sibling)
  /\ (forall label,
        find "span" [] (Some (Pattern observers_label)) node = Some label ->
        exists s, string_ label = Some s
                  /\ contains "Observers" s || contains "observers" s = true)
  /\ (forall e, _scrape_party_size node = Raise e ->
        e = AttributeError "find_next_sibling" \/ e = AttributeError "text").
Proof.
  unfold _scrape_party_size, mbind, result_bind, getattr.
  split; [| split].
  - intros p.
    destruct (find "span" [] (Some (Pattern observers_label)) node) as [label|].
    + destruct (find_next_sibling label) as [sib|] eqn:Hs.
      * split.
        -- intros [= <-]. exists label, sib. auto.
        -- intros (l' & s' & [= <-] & H & ->). rewrite Hs in H.
           injection H as <-. reflexivity.
      * split; [discriminate |].
        intros (l' & s' & [= <-] & H & _). rewrite Hs in H. discriminate H.
    + split; [discriminate |]. intros (l' & s' & H & _). discriminate H.
  - intros label H. apply find_matches in H. unfold matches_tag in H.
    apply andb_prop in H as [_ H]. unfold matches in H.
    destruct (string_ label) as [s|]; [| discriminate H].
    rewrite label_pattern_search in H. eauto.
  - intros e.
    destruct (find "span" [] (Some (Pattern observers_label)) node) as [label|];
      [| intros [= <-]; auto].
    destruct (find_next_sibling label); [discriminate | intros [= <-]; auto].
Qed.

(** X7: the area extractor returns both parts of its pair or none, and the
    unit it returns is [ha] or [acre]. *)
Theorem area_pair_invariant (node : tag) (a : option pyfloat) (u : option string) :
  _scrape_area node = Ok (a, u) ->
  (a = None /\ u = None)
  \/ exists f k, a = Some f /\ u = Some k /\ (k = "ha" \/ k = "acre").
Proof. apply scrape_area_pair. Qed.

Lemma area_pair_invariant_witness :
  _scrape_area page_area = Ok (Some (Finite false 25 (-1)), Some "acre")
  /\ ((Some (Finite false 25 (-1)) = None /\ Some "acre" = @None string)
      \/ exists f k, Some (Finite false 25 (-1)) = Some f /\ Some "acre" = Some k
                     /\ (k = "ha" \/ k = "acre")).
Proof.
  split; [vm_compute; reflexivity |].
  apply (area_pair_invariant page_area). vm_compute. reflexivity.
Defined.

Lemma scrape_date_valid_witness :
  _scrape_date page_at_0705 = Ok (mk_datetime 2023 5 7 19 5)
  /\ (1 <= 2023 <= 9999)%Z /\ (1 <= 5 <= 12)%Z
  /\ (1 <= 7 <= days_in_month 2023 5)%Z
  /\ (0 <= 19 <= 23)%Z /\ (0 <= 5 <= 59)%Z.
Proof.
  split; [vm_compute; reflexivity |].
  apply (scrape_date_valid page_at_0705 (mk_datetime 2023 5 7 19 5)).
  vm_compute. reflexivity.
Defined.

Lemma scrape_time_clock_witness : fullmatch re_clock "07:05 PM" = true.
Proof.
  apply (scrape_time_clock page_at_0705). vm_compute. reflexivity.
Defined.

Lemma checklist_time_is_date_witness :
  exists c, _scrape_checklist page_checklist_ok = Ok c
            /\ date c = mk_datetime 2023 5 7 7 5
            /\ protocol c !! "time" = Some (VStr (strftime (date c))).
Proof.
  assert (is_ok (_scrape_checklist page_checklist_ok) = true) as Hok by (vm_compute; reflexivity).
  destruct (_scrape_checklist page_checklist_ok) as [c|] eqn:E;
    [clear Hok | discriminate Hok].
  exists c. split; [reflexivity |]. split.
  - apply scrape_checklist_parts in E as [Hd _].
    assert (_scrape_date page_checklist_ok = Ok (mk_datetime 2023 5 7 7 5))
      as Hdate by (vm_compute; reflexivity).
    rewrite Hdate in Hd. injection Hd as <-. reflexivity.
  - apply (checklist_time_is_date page_checklist_ok c E).
Defined.

Lemma scrape_checklist_composition_witness :
  (exists c, _scrape_checklist page_checklist_ok = Ok c
             /\ identifier c = "S136374832" /\ comment c = None)
  /\ _scrape_checklist page_with_empty_time = Raise TypeError
  /\ _scrape_checklist page_checklist_bad_count
     = Raise (ValueError "invalid literal for int() with base 10: 'few'").
Proof.
  split; [| split].
  - assert (is_ok (_scrape_checklist page_checklist_ok) = true) as Hok by (vm_compute; reflexivity).
  destruct (_scrape_checklist page_checklist_ok) as [c|] eqn:E;
    [clear Hok | discriminate Hok].
    exists c. split; [reflexivity |].
    apply (proj1 (scrape_checklist_composition page_checklist_ok)) in E
      as (Hi & _ & _ & _ & _ & Hc & _).
    assert (_scrape_identifier page_checklist_ok = Ok "S136374832")
      as Hid by (vm_compute; reflexivity).
    rewrite Hid in Hi. injection Hi as <-. auto.
  - apply (proj2 (scrape_checklist_composition page_with_empty_time)).
    vm_compute. reflexivity.
  - apply (proj2 (scrape_checklist_composition page_checklist_bad_count)).
    vm_compute. reflexivity.
Defined.


Lemma scrape_entries_in_order_witness :
  _scrape_entries page_at_0705 = Ok []
  /\ _scrape_entries page_mixed_items
     = Ok [mk_entry "Blue Jay" (Some 3%Z); mk_entry "Snowy Owl" None]
  /\ exists box,
       find "div" [("id", Exact "list")] None page_mixed_items = Some box
       /\ length (find_all "li" [] None box) = 4
       /\ Forall2 (fun item e => _scrape_entry item = Ok e)
            (List.filter is_observation_item (descendants box))
            [mk_entry "Blue Jay" (Some 3%Z); mk_entry "Snowy Owl" None].
Proof.
  split; [| split].
  - apply (proj1 (scrape_entries_in_order page_at_0705)). vm_compute. reflexivity.
  - vm_compute. reflexivity.
  - assert (is_Some (find "div" [("id", Exact "list")] None page_mixed_items))
      as [box Hbox] by (vm_compute; eauto).
    exists box. split; [exact Hbox |]. split.
    + pose proof Hbox as Hlen. vm_compute in Hlen. injection Hlen as <-.
      vm_compute. reflexivity.
    + apply (proj1 (proj2 (proj2 (scrape_entries_in_order page_mixed_items)
                             box Hbox))).
      vm_compute. reflexivity.
Defined.

Lemma historical_record_witness :
  exists r, _historical_observations page_historical = Ok r
            /\ r !! "distance" = Some VNone
            /\ r !! "time" = None
            /\ r !! "party_size" = None
            /\ r !! "area" = Some (VPair (VFloat (Finite false 3 0)) (VStr "acre")).
Proof.
  assert (is_ok (_historical_observations page_historical) = true) as Hok by (vm_compute; reflexivity).
  destruct (_historical_observations page_historical) as [r|] eqn:E;
    [clear Hok | discriminate Hok].
  exists r. split; [reflexivity |].
  destruct (historical_record page_historical r E)
    as (t & d & x & a & p & o & Et & _ & Ex & Ea & Ep & _
        & _ & Hdist & Htime & _ & Harea & Hparty & _).
  vm_compute in Et, Ex, Ea, Ep.
  injection Et as <-. injection Ex as <-. injection Ea as <-. injection Ep as <-.
  auto.
Defined.

Lemma validating_record_witness :
  exists r, _distance_protocol (page_traveling None) = Ok r
            /\ dom r = declared Distance
            /\ present Distance Duration (page_traveling None)
            /\ _scrape_distance (page_traveling None) = Ok None
            /\ r !! "distance" = Some VNone.
Proof.
  assert (is_ok (_distance_protocol (page_traveling None)) = true)
    as Hok by (vm_compute; reflexivity).
  assert (_scrape_distance (page_traveling None) = Ok None)
    as Hnone by (vm_compute; reflexivity).
  destruct (_distance_protocol (page_traveling None)) as [r|] eqn:E;
    [clear Hok | discriminate Hok].
  exists r. split; [reflexivity |].
  destruct (validating_record Distance (page_traveling None) r
              ltac:(discriminate) ltac:(discriminate) E)
    as (Hdom & _ & Hduration & _ & _ & Hdistance).
  split; [exact Hdom |]. split; [exact Hduration |]. split; [exact Hnone |].
  destruct (Hdistance eq_refl) as (distance & Ex & Hr).
  rewrite Hnone in Ex. injection Ex as <-. exact Hr.
Defined.

Lemma protocol_record_name_witness :
  exists r name, _scrape_protocol page_at_0705 = Ok r
                 /\ _scrape_protocol_name page_at_0705 = Ok name
                 /\ name = "Stationary"
                 /\ r !! "name" = Some (VStr name).
Proof.
  assert (is_ok (_scrape_protocol page_at_0705) = true) as Hok by (vm_compute; reflexivity).
  destruct (_scrape_protocol page_at_0705) as [r|] eqn:E;
    [clear Hok | discriminate Hok].
  destruct (protocol_record_name page_at_0705 r E) as (name & Hname & _ & Hr).
  exists r, name. split; [reflexivity |]. split; [exact Hname |].
  split; [| exact Hr]. vm_compute in Hname. injection Hname as <-. reflexivity.
Defined.

Lemma incidental_record_witness :
  exists r, _incidental_observations page_checklist_ok = Ok r
            /\ r = {[ "time" := VStr "07:05 AM";
                      "observers" := VList ["Owner"; "Jane Doe"] ]}.
Proof.
  assert (is_ok (_incidental_observations page_checklist_ok) = true) as Hok by (vm_compute; reflexivity).
  destruct (_incidental_observations page_checklist_ok) as [r|] eqn:E;
    [clear Hok | discriminate Hok].
  exists r. split; [reflexivity |].
  destruct (incidental_record page_checklist_ok r E) as (o & Ho & H).
  vm_compute in Ho. injection Ho as <-.
  destruct H as [[Ht _] | (t & Ht & ->)];
    vm_compute in Ht; [discriminate Ht |].
  injection Ht as <-. reflexivity.
Defined.

Lemma location_structure_witness :
  exists l, _scrape_location page_checklist_ok = Ok l
            /\ 3 <= length (find_all "section" [] None page_checklist_ok)
            /\ loc_name l = "Central Park".
Proof.
  assert (is_ok (_scrape_location page_checklist_ok) = true) as Hok by (vm_compute; reflexivity).
  destruct (_scrape_location page_checklist_ok) as [l|] eqn:E;
    [clear Hok | discriminate Hok].
  exists l. split; [reflexivity |].
  destruct (location_structure page_checklist_ok l E) as (Hs & _).
  split; [exact Hs |]. vm_compute in E. injection E as <-. reflexivity.
Defined.

Lemma location_coordinates_witness :
  exists l c tail,
    _scrape_location page_checklist_ok = Ok l
    /\ _scrape_coords page_checklist_ok = Ok c
    /\ c = (loc_lat l ++ "," ++ loc_lon l ++ tail)%string
    /\ loc_lat l = "40.7715" /\ loc_lon l = "-73.9674".
Proof.
  assert (is_ok (_scrape_location page_checklist_ok) = true) as Hok by (vm_compute; reflexivity).
  destruct (_scrape_location page_checklist_ok) as [l|] eqn:E;
    [clear Hok | discriminate Hok].
  destruct (location_coordinates page_checklist_ok l E)
    as (c & tail & Hc & Heq & _).
  exists l, c, tail. split; [reflexivity |]. split; [exact Hc |].
  split; [exact Heq |]. vm_compute in E. injection E as <-. split; reflexivity.
Defined.

Lemma labelled_badges_witness :
  _scrape_duration page_without_time = Ok None
  /\ _scrape_distance page_at_0705 = Ok None
  /\ exists x, find "span" [("title", Pattern duration_label)] None page_at_0705
               = Some x
               /\ _scrape_duration page_at_0705
                  = match badge_text x with
                    | Ok t => Ok (Some t)
                    | Raise _ => Raise (AttributeError "text")
                    end.
Proof.
  split; [| split].
  - apply (proj1 (labelled_badges page_without_time)). vm_compute. reflexivity.
  - apply (proj1 (proj2 (labelled_badges page_at_0705))). vm_compute. reflexivity.
  - assert (is_Some (find "span" [("title", Pattern duration_label)] None
                       page_at_0705)) as [x Hx] by (vm_compute; eauto).
    exists x. split; [exact Hx |].
    apply (proj1 (proj2 (proj2 (labelled_badges page_at_0705))) x Hx).
Defined.

Lemma party_size_outcomes_witness :
  _scrape_party_size page_at_0705 = Ok "2"
  /\ (_scrape_party_size page_without_time = Raise (AttributeError "find_next_sibling")
      \/ _scrape_party_size page_without_time = Raise (AttributeError "text")).
Proof.
  split.
  - apply (proj1 (party_size_outcomes page_at_0705)).
    eexists. eexists. split; [vm_compute; reflexivity |].
    split; vm_compute; reflexivity.
  - assert (is_ok (_scrape_party_size page_without_time) = false) as Hok
      by (vm_compute; reflexivity).
    destruct (_scrape_party_size page_without_time) as [p|e] eqn:E;
      [discriminate Hok | clear Hok].
    destruct (proj2 (proj2 (party_size_outcomes page_without_time)) e) as [-> | ->];
      [exact E | left | right]; reflexivity.
Defined.
